(** * MCPServerManager: a shallow embedding of [Agents/mcp_server_manager.py]

    The manager owns two insertion-ordered dictionaries ([_servers] and
    [_tools]) and the parsed configuration.  Everything it does besides
    updating these is a call into a collaborator (the file system and the
    YAML parser, the [MCPServerStdio] client, [MCPUtil]) or a [print].

    The embedding is a state-and-exception monad over the manager's fields
    and a chronological [trace] of what the manager printed and which
    collaborator calls it made, each with the answer it got.  The
    collaborators are an arbitrary environment: a function from the trace so
    far to the answer of the next call, so that every sequence of successes
    and failures is covered by quantifying over environments.

    Modelling boundaries:
    - exceptions are the ones derived from Python's [Exception], which is
      what every [except Exception] of the source catches;
    - a YAML document is a null, a boolean, an integer, a string, a list or
      a mapping with string keys; strings are byte strings;
    - the coroutines run one after the other, never interleaved. *)

From Stdlib Require Import String List ZArith Bool.
Import ListNotations.
Local Open Scope string_scope.
Local Open Scope list_scope.

(** ** Python values *)

#[local] Set Warnings "-register-all".

(** What [yaml.safe_load] returns. *)
Inductive yaml : Type :=
| YNone
| YBool (b : bool)
| YInt (z : Z)
| YStr (s : string)
| YList (l : list yaml)
| YDict (d : list (string * yaml)).

(** Exceptions derived from [Exception]. *)
Inductive exn : Type :=
| KeyError (key : string)
| TypeError (msg : string)
| AttributeError (msg : string)
| External (msg : string).

Inductive result (A : Type) : Type :=
| Ok (a : A)
| Raise (e : exn).
Arguments Ok {A} a.
Arguments Raise {A} e.

(** ** Insertion-ordered dictionaries with string keys *)

Module PyDict.

Definition t (V : Type) : Type := list (string * V).

Definition empty {V} : t V := [].

(** [d.get(k)] *)
Fixpoint get {V} (k : string) (d : t V) : option V :=
  match d with
  | [] => None
  | (k', v) :: d' => if String.eqb k k' then Some v else get k d'
  end.

(** [k in d] *)
Definition contains {V} (k : string) (d : t V) : bool :=
  match get k d with Some _ => true | None => false end.

(** [d[k] = v]: an existing key keeps its place, a new key goes last. *)
Fixpoint set {V} (k : string) (v : V) (d : t V) : t V :=
  match d with
  | [] => [(k, v)]
  | (k', v') :: d' =>
      if String.eqb k k' then (k, v) :: d' else (k', v') :: set k v d'
  end.

(** [del d[k]] for a key that is present (the source tests [k in d] first). *)
Fixpoint del {V} (k : string) (d : t V) : t V :=
  match d with
  | [] => []
  | (k', v') :: d' =>
      if String.eqb k k' then d' else (k', v') :: del k d'
  end.

Definition keys {V} (d : t V) : list string := map fst d.
Definition values {V} (d : t V) : list V := map snd d.

(** A Python dictionary holds a key once. *)
Definition wf {V} (d : t V) : Prop := NoDup (keys d).

End PyDict.

(** [not v] is [negb (truthy v)]. *)
Definition truthy (v : yaml) : bool :=
  match v with
  | YNone => false
  | YBool b => b
  | YInt z => negb (Z.eqb z 0)
  | YStr s => negb (String.eqb s "")
  | YList l => match l with [] => false | _ => true end
  | YDict d => match d with [] => false | _ => true end
  end.

(** [v.get(key, default)]: only a mapping has a [get] attribute. *)
Definition py_get (v : yaml) (key : string) (default : yaml) : result yaml :=
  match v with
  | YDict d =>
      Ok (match PyDict.get key d with Some x => x | None => default end)
  | _ => Raise (AttributeError "get")
  end.

(** [v.items()] *)
Definition py_items (v : yaml) : result (list (string * yaml)) :=
  match v with
  | YDict d => Ok d
  | _ => Raise (AttributeError "items")
  end.

(** [v[key]] for a string key. *)
Definition py_getitem (v : yaml) (key : string) : result yaml :=
  match v with
  | YDict d =>
      match PyDict.get key d with
      | Some x => Ok x
      | None => Raise (KeyError key)
      end
  | YList _ => Raise (TypeError "list indices must be integers or slices, not str")
  | YStr _ => Raise (TypeError "string indices must be integers, not 'str'")
  | _ => Raise (TypeError "object is not subscriptable")
  end.

Fixpoint all_strings (l : list yaml) : option (list string) :=
  match l with
  | [] => Some []
  | YStr s :: l' =>
      match all_strings l' with
      | Some ss => Some (s :: ss)
      | None => None
      end
  | _ :: _ => None
  end.

Fixpoint chars (s : string) : list string :=
  match s with
  | EmptyString => []
  | String c s' => String c EmptyString :: chars s'
  end.

(** [sep.join(v)]: [v] is iterated; iterating a string yields its
    characters and iterating a mapping yields its keys. *)
Definition py_join (sep : string) (v : yaml) : result string :=
  match v with
  | YList l =>
      match all_strings l with
      | Some ss => Ok (String.concat sep ss)
      | None => Raise (TypeError "sequence item: expected str instance")
      end
  | YStr s => Ok (String.concat sep (chars s))
  | YDict d => Ok (String.concat sep (PyDict.keys d))
  | _ => Raise (TypeError "can only join an iterable")
  end.

(** ** Collaborators *)

(** An [MCPServerStdio] object, as its constructor call determines it. *)
Record MCPServerStdio : Type := mkServer {
  name : string;
  params : yaml;
  cache_tools_list : yaml
}.

(** One tool descriptor ([List[dict]] in the source's annotations). *)
Definition tool : Type := yaml.

(** The lines the manager prints, with the values interpolated in them. *)
Inductive line : Type :=
| LoadingConfig (config_path : string)
| ConfigLoaded
| InitStart
| Initializing (server_name : string)
| CommandLine (command : yaml) (args : string)
| InitOk (server_name : string)
| InitFailed (server_name : string) (e : exn)
| InitDone
| Connecting (name : string)
| FetchingTools (name : string)
| FetchedTools (name : string) (count : nat)
| AddError (name : string) (e : exn)
| AllToolsStart
| AllToolsDone (count : nat)
| RefreshStart
| Refreshing (name : string)
| Refreshed (name : string) (count : nat)
| RefreshError (name : string) (e : exn)
| CloseStart
| Closing (name : string)
| CleanupError (name : string) (e : exn)
| TerminateError (name : string) (e : exn)
| Closed (name : string)
| CloseError (name : string) (e : exn)
| CloseDone.

(** What the manager did to the outside, in order. *)
Inductive event : Type :=
| Print (l : line)
| Open (config_path : string) (r : result yaml)
| Construct (name : string) (params flag : yaml) (r : result unit)
| Connect (server : MCPServerStdio) (r : result unit)
| ListTools (server : MCPServerStdio) (r : result (list tool))
| AllFunctionTools (servers : list MCPServerStdio) (r : result (list tool))
| Cleanup (server : MCPServerStdio) (r : result unit)
| Process (server : MCPServerStdio) (r : result bool)
| Terminate (server : MCPServerStdio) (r : result unit)
| Sleep
| Poll (server : MCPServerStdio) (r : result bool)
| Kill (server : MCPServerStdio) (r : result unit).

(** The outside: each answer is a function of everything that happened
    before the call. *)
Record env : Type := mkEnv {
  module_dir : string;
  (** [open(config_path)] followed by [yaml.safe_load] *)
  env_open : list event -> string -> result yaml;
  (** [MCPServerStdio(name=..., params=..., cache_tools_list=...)] *)
  env_construct : list event -> string -> yaml -> yaml -> result unit;
  env_connect : list event -> MCPServerStdio -> result unit;
  env_list_tools : list event -> MCPServerStdio -> result (list tool);
  env_all_function_tools :
    list event -> list MCPServerStdio -> result (list tool);
  env_cleanup : list event -> MCPServerStdio -> result unit;
  (** [hasattr(server, 'process') and server.process], as a truth value *)
  env_process : list event -> MCPServerStdio -> result bool;
  env_terminate : list event -> MCPServerStdio -> result unit;
  (** [server.process.poll() is None] *)
  env_poll : list event -> MCPServerStdio -> result bool;
  env_kill : list event -> MCPServerStdio -> result unit
}.

(** ** The manager's state and its monad *)

Record state : Type := mkState {
  _servers : PyDict.t MCPServerStdio;
  _tools : PyDict.t (list tool);
  _config : yaml;
  trace : list event
}.

(** [MCPServerManager.__init__] *)
Definition init : state :=
  {| _servers := PyDict.empty; _tools := PyDict.empty;
     _config := YDict []; trace := [] |}.

Definition M (A : Type) : Type := state -> result A * state.

Definition ret {A} (a : A) : M A := fun s => (Ok a, s).

Definition throw {A} (e : exn) : M A := fun s => (Raise e, s).

Definition bind {A B} (m : M A) (k : A -> M B) : M B :=
  fun s =>
    match m s with
    | (Ok a, s') => k a s'
    | (Raise e, s') => (Raise e, s')
    end.

Declare Scope py_scope.
Delimit Scope py_scope with py.
Notation "x <- m ;; k" := (bind m (fun x => k))
  (at level 61, m at next level, right associativity) : py_scope.
Notation "m ;; k" := (bind m (fun _ => k))
  (at level 61, right associativity) : py_scope.
Local Open Scope py_scope.

(** [try: m  except Exception as e: h e] *)
Definition try_except {A} (m : M A) (h : exn -> M A) : M A :=
  fun s =>
    match m s with
    | (Ok a, s') => (Ok a, s')
    | (Raise e, s') => h e s'
    end.

(** [try: m  finally: f] *)
Definition try_finally {A} (m : M A) (f : M unit) : M A :=
  fun s =>
    match m s with
    | (r, s') =>
        match f s' with
        | (Ok _, s'') => (r, s'')
        | (Raise e, s'') => (Raise e, s'')
        end
    end.

(** [for x in l: body x] *)
Fixpoint for_each {A} (l : list A) (body : A -> M unit) : M unit :=
  match l with
  | [] => ret tt
  | x :: l' => body x ;; for_each l' body
  end.

Definition lift {A} (r : result A) : M A := fun s => (r, s).

Definition gets {A} (f : state -> A) : M A := fun s => (Ok (f s), s).

Definition emit (ev : event) : M unit :=
  fun s =>
    (Ok tt, {| _servers := _servers s; _tools := _tools s;
               _config := _config s; trace := trace s ++ [ev] |}).

Definition print (l : line) : M unit := emit (Print l).

(** A collaborator call: ask the environment, record call and answer. *)
Definition call {A} (ask : list event -> result A)
    (record : result A -> event) : M A :=
  fun s =>
    let r := ask (trace s) in
    (r, {| _servers := _servers s; _tools := _tools s;
           _config := _config s; trace := trace s ++ [record r] |}).

Definition set_config (c : yaml) : M unit :=
  fun s =>
    (Ok tt, {| _servers := _servers s; _tools := _tools s;
               _config := c; trace := trace s |}).

Definition set_servers (d : PyDict.t MCPServerStdio) : M unit :=
  fun s =>
    (Ok tt, {| _servers := d; _tools := _tools s;
               _config := _config s; trace := trace s |}).

Definition set_tools (d : PyDict.t (list tool)) : M unit :=
  fun s =>
    (Ok tt, {| _servers := _servers s; _tools := d;
               _config := _config s; trace := trace s |}).

(** ** The manager's methods *)

Section Manager.

Variable E : env.

Definition default_config_path : string :=
  module_dir E ++ "/mcp_server_config.yaml".

Definition load_config (config_path : option string) : M unit :=
  let config_path :=
    match config_path with
    | None => default_config_path
    | Some p => p
    end in
  print (LoadingConfig config_path) ;;
  c <- call (fun tr => env_open E tr config_path) (Open config_path) ;;
  set_config c ;;
  print ConfigLoaded.

Definition add_server (name : string) (server : MCPServerStdio) : M unit :=
  try_except
    (print (Connecting name) ;;
     call (fun tr => env_connect E tr server) (Connect server) ;;
     d <- gets _servers ;;
     set_servers (PyDict.set name server d) ;;
     print (FetchingTools name) ;;
     tools <- call (fun tr => env_list_tools E tr server) (ListTools server) ;;
     t <- gets _tools ;;
     set_tools (PyDict.set name tools t) ;;
     print (FetchedTools name (length tools)))
    (fun e =>
       print (AddError name e) ;;
       d <- gets _servers ;;
       (if PyDict.contains name d
        then set_servers (PyDict.del name d)
        else ret tt) ;;
       throw e).

(** The [try] block in the loop of [initialize_servers]. *)
Definition try_add_server (server_name : string) (server : MCPServerStdio)
  : M unit :=
  try_except
    (add_server server_name server ;;
     print (InitOk server_name))
    (fun e => print (InitFailed server_name e)).

(** The body of the loop of [initialize_servers]. *)
Definition initialize_server (item : string * yaml) : M unit :=
  let '(server_name, server_config) := item in
  print (Initializing server_name) ;;
  p <- lift (py_getitem server_config "params") ;;
  command <- lift (py_getitem p "command") ;;
  p <- lift (py_getitem server_config "params") ;;
  a <- lift (py_getitem p "args") ;;
  args <- lift (py_join " " a) ;;
  print (CommandLine command args) ;;
  p <- lift (py_get server_config "params" (YDict [])) ;;
  flag <- lift (py_get server_config "cache_tools_list" (YBool true)) ;;
  call (fun tr => env_construct E tr server_name p flag)
       (Construct server_name p flag) ;;
  let server :=
    {| name := server_name; params := p; cache_tools_list := flag |} in
  try_add_server server_name server.

(** [initialize_servers] from its first [print] on. *)
Definition iterate_servers : M unit :=
  print InitStart ;;
  c <- gets _config ;;
  servers <- lift (py_get c "servers" (YDict [])) ;;
  items <- lift (py_items servers) ;;
  for_each items initialize_server ;;
  print InitDone.

Definition initialize_servers : M unit :=
  c <- gets _config ;;
  (if negb (truthy c) then load_config None else ret tt) ;;
  iterate_servers.

Definition get_server (name : string) : M (option MCPServerStdio) :=
  d <- gets _servers ;;
  ret (PyDict.get name d).

Definition get_all_tools : M (list tool) :=
  d <- gets _servers ;;
  let servers := PyDict.values d in
  print AllToolsStart ;;
  tools_list <- call (fun tr => env_all_function_tools E tr servers)
                     (AllFunctionTools servers) ;;
  print (AllToolsDone (length tools_list)) ;;
  ret tools_list.

Definition get_server_tools (server_name : string)
  : M (option (list tool)) :=
  t <- gets _tools ;;
  ret (PyDict.get server_name t).

(** The body of the loop of [refresh_tools]. *)
Definition refresh_server (item : string * MCPServerStdio) : M unit :=
  let '(name, server) := item in
  try_except
    (print (Refreshing name) ;;
     tools <- call (fun tr => env_list_tools E tr server) (ListTools server) ;;
     t <- gets _tools ;;
     set_tools (PyDict.set name tools t) ;;
     print (Refreshed name (length tools)))
    (fun e => print (RefreshError name e)).

(** The loop runs over [self._servers.items()], which the body leaves
    untouched. *)
Definition refresh_tools : M unit :=
  print RefreshStart ;;
  d <- gets _servers ;;
  for_each d refresh_server.

(** The forceful-termination fallback of [close]. *)
Definition terminate_process (name : string) (server : MCPServerStdio)
  : M unit :=
  has_process <- call (fun tr => env_process E tr server) (Process server) ;;
  if (has_process : bool) then
    try_except
      (call (fun tr => env_terminate E tr server) (Terminate server) ;;
       emit Sleep ;;
       running <- call (fun tr => env_poll E tr server) (Poll server) ;;
       if (running : bool)
       then call (fun tr => env_kill E tr server) (Kill server)
       else ret tt)
      (fun e => print (TerminateError name e))
  else ret tt.

(** The body of the loop of [close]. *)
Definition close_server (item : string * MCPServerStdio) : M unit :=
  let '(name, server) := item in
  try_finally
    (try_except
       (print (Closing name) ;;
        try_except
          (call (fun tr => env_cleanup E tr server) (Cleanup server))
          (fun e =>
             print (CleanupError name e) ;;
             terminate_process name server) ;;
        print (Closed name))
       (fun e => print (CloseError name e)))
    (d <- gets _servers ;;
     if PyDict.contains name d
     then set_servers (PyDict.del name d)
     else ret tt).

(** The loop runs over [list(self._servers.items())], a snapshot. *)
Definition close : M unit :=
  print CloseStart ;;
  d <- gets _servers ;;
  for_each d close_server ;;
  set_tools PyDict.empty ;;
  print CloseDone.

End Manager.

(** ** The public operations, and the states they reach *)

Inductive op : Type :=
| OpLoadConfig (config_path : option string)
| OpInitializeServers
| OpAddServer (name : string) (server : MCPServerStdio)
| OpGetServer (name : string)
| OpGetAllTools
| OpGetServerTools (server_name : string)
| OpRefreshTools
| OpClose.

(** One call of a public method; its value or exception goes to the caller,
    the manager keeps its state either way. *)
Definition exec (E : env) (s : state) (o : op) : state :=
  match o with
  | OpLoadConfig p => snd (load_config E p s)
  | OpInitializeServers => snd (initialize_servers E s)
  | OpAddServer n h => snd (add_server E n h s)
  | OpGetServer n => snd (get_server n s)
  | OpGetAllTools => snd (get_all_tools E s)
  | OpGetServerTools n => snd (get_server_tools n s)
  | OpRefreshTools => snd (refresh_tools E s)
  | OpClose => snd (close E s)
  end.

Definition run (E : env) (ops : list op) : state :=
  fold_left (exec E) ops init.

Definition reachable (E : env) (s : state) : Prop :=
  exists ops, s = run E ops.

(** ** Concrete collaborators used to evaluate the model *)

Module Sample.

Definition entry (command : string) : yaml :=
  YDict [("params", YDict [("command", YStr command);
                           ("args", YList [YStr "-m"; YStr "srv"])])].

Definition config2 : yaml :=
  YDict [("servers", YDict [("a", entry "good"); ("b", entry "good")])].

(** The first entry has no [params]. *)
Definition config_no_params : yaml :=
  YDict [("servers", YDict [("a", YDict []); ("b", entry "good")])].

(** The first entry has a [command] that is not a string. *)
Definition config_bad_command : yaml :=
  YDict [("servers",
          YDict [("a", YDict [("params", YDict [("command", YInt 7);
                                                ("args", YList [])])]);
                 ("b", entry "good")])].

Definition is_bad (server : MCPServerStdio) : bool :=
  match py_getitem (params server) "command" with
  | Ok (YStr c) => String.eqb c "bad"
  | _ => false
  end.

Definition tools_of (server : MCPServerStdio) : list tool :=
  [YDict [("name", YStr (name server ++ "_tool"))]].

(** Every call succeeds, except the constructor on parameters whose
    command is not a string and [connect] on a server whose command is
    ["bad"]; ["empty.yaml"] is an empty document and every other path
    holds [file]. *)
Definition world (file : yaml) : env :=
  {| module_dir := "/app/Agents";
     env_open := fun _ p =>
       if String.eqb p "empty.yaml" then Ok YNone else Ok file;
     env_construct := fun _ _ p _ =>
       match py_getitem p "command" with
       | Ok (YStr _) => Ok tt
       | _ => Raise (External "validation")
       end;
     env_connect := fun _ h =>
       if is_bad h then Raise (External "connect") else Ok tt;
     env_list_tools := fun _ h => Ok (tools_of h);
     env_all_function_tools := fun _ hs => Ok (concat (map tools_of hs));
     env_cleanup := fun _ _ => Ok tt;
     env_process := fun _ _ => Ok false;
     env_terminate := fun _ _ => Ok tt;
     env_poll := fun _ _ => Ok false;
     env_kill := fun _ _ => Ok tt |}.

(** As [world], but [list_tools] fails once some [list_tools] call has
    succeeded for the same server, and every [cleanup] fails. *)
Definition fetched_before (server : MCPServerStdio) (ev : event) : bool :=
  match ev with
  | ListTools h (Ok _) => String.eqb (name h) (name server)
  | _ => false
  end.

Definition flaky (file : yaml) : env :=
  {| module_dir := "/app/Agents";
     env_open := fun _ _ => Ok file;
     env_construct := fun _ _ _ _ => Ok tt;
     env_connect := fun _ h =>
       if is_bad h then Raise (External "connect") else Ok tt;
     env_list_tools := fun tr h =>
       if existsb (fetched_before h) tr
       then Raise (External "list_tools")
       else Ok (tools_of h);
     env_all_function_tools := fun _ hs => Ok (concat (map tools_of hs));
     env_cleanup := fun _ _ => Raise (External "cleanup");
     env_process := fun _ _ => Ok true;
     env_terminate := fun _ _ => Raise (External "terminate");
     env_poll := fun _ _ => Ok true;
     env_kill := fun _ _ => Ok tt |}.

Definition server (n command : string) : MCPServerStdio :=
  {| name := n;
     params := YDict [("command", YStr command); ("args", YList [])];
     cache_tools_list := YBool true |}.

End Sample.

(** ** Observations on the trace *)

(** [add_server] prints [Connecting name] before anything else, and nothing
    else prints it: the line is in the trace exactly when [add_server] was
    entered with [name], by its caller or by [initialize_servers]. *)
Definition passed_to_add_server (name : string) (tr : list event) : Prop :=
  In (Print (Connecting name)) tr.

(** The tool sequence most recently fetched for [name]: the manager
    announces for which name it fetches ([FetchingTools] in [add_server],
    [Refreshing] in [refresh_tools]) and the next event is the answer of
    [list_tools]; [close] ends with [CloseDone]. *)
Definition observe (name : string)
    (st : option string * option (list tool)) (ev : event)
  : option string * option (list tool) :=
  match ev with
  | Print (FetchingTools n) => (Some n, snd st)
  | Print (Refreshing n) => (Some n, snd st)
  | ListTools _ (Ok tools) =>
      (None,
       match fst st with
       | Some n => if String.eqb n name then Some tools else snd st
       | None => snd st
       end)
  | Print CloseDone => (None, None)
  | _ => (None, snd st)
  end.

Definition last_fetched (name : string) (tr : list event)
  : option (list tool) :=
  snd (fold_left (observe name) tr (None, None)).

(** A configuration entry as the external interface describes it: a mapping
    whose [params] is a mapping with a [command] and a list of strings
    [args]. *)
Definition valid_entry (server_config : yaml) : bool :=
  match server_config with
  | YDict d =>
      match PyDict.get "params" d with
      | Some (YDict p) =>
          match PyDict.get "command" p, PyDict.get "args" p with
          | Some (YStr _), Some (YList a) =>
              match all_strings a with Some _ => true | None => false end
          | _, _ => false
          end
      | _ => false
      end
  | _ => false
  end.

(** The dictionaries of a state are dictionaries. *)
Definition state_wf (s : state) : Prop :=
  PyDict.wf (_servers s) /\ PyDict.wf (_tools s).

(** ** The answers [add_server] gets *)

(** [connect] is asked right after the first line is printed, [list_tools]
    after the connection succeeded and the second line is printed. *)
Definition connect_answer (E : env) (name : string) (server : MCPServerStdio)
    (s : state) : result unit :=
  env_connect E (trace s ++ [Print (Connecting name)]) server.

Definition fetch_answer (E : env) (name : string) (server : MCPServerStdio)
    (s : state) : result (list tool) :=
  env_list_tools E
    (trace s ++ [Print (Connecting name); Connect server (Ok tt);
                 Print (FetchingTools name)]) server.

(** The three ways [add_server] can go. *)
Inductive add_outcome (E : env) (name : string) (server : MCPServerStdio) (s : state)
  : result unit -> state -> Prop :=
| AddConnectFails e :
    connect_answer E name server s = Raise e ->
    add_outcome E name server s (Raise e)
      {| _servers := if PyDict.contains name (_servers s)
                     then PyDict.del name (_servers s) else _servers s;
         _tools := _tools s;
         _config := _config s;
         trace := trace s ++ [Print (Connecting name);
                              Connect server (Raise e);
                              Print (AddError name e)] |}
| AddFetchFails e :
    connect_answer E name server s = Ok tt ->
    fetch_answer E name server s = Raise e ->
    add_outcome E name server s (Raise e)
      {| _servers := PyDict.del name (PyDict.set name server (_servers s));
         _tools := _tools s;
         _config := _config s;
         trace := trace s ++ [Print (Connecting name);
                              Connect server (Ok tt);
                              Print (FetchingTools name);
                              ListTools server (Raise e);
                              Print (AddError name e)] |}
| AddSucceeds tools :
    connect_answer E name server s = Ok tt ->
    fetch_answer E name server s = Ok tools ->
    add_outcome E name server s (Ok tt)
      {| _servers := PyDict.set name server (_servers s);
         _tools := PyDict.set name tools (_tools s);
         _config := _config s;
         trace := trace s ++ [Print (Connecting name);
                              Connect server (Ok tt);
                              Print (FetchingTools name);
                              ListTools server (Ok tools);
                              Print (FetchedTools name (length tools))] |}.


(** [add_server] fails with [e]: the connect step raises [e], or it
    succeeds and the first tool fetch raises [e]. *)
Definition add_fails (E : env) (name : string) (server : MCPServerStdio)
    (s : state) (e : exn) : Prop :=
  connect_answer E name server s = Raise e \/
  (connect_answer E name server s = Ok tt /\
   fetch_answer E name server s = Raise e).

(** Events that shut a server down. *)
Definition no_shutdown (ev : event) : Prop :=
  match ev with
  | Cleanup _ _ | Terminate _ _ | Kill _ _ => False
  | _ => True
  end.

(** The entries [iterate_servers] loops over when the stored configuration
    is [c]. *)
Definition config_items (c : yaml) : list (string * yaml) :=
  match py_get c "servers" (YDict []) with
  | Ok (YDict items) => items
  | _ => []
  end.

(** The constructor arguments [initialize_server] takes from an entry. *)
Definition entry_params (server_config : yaml) : yaml :=
  match py_get server_config "params" (YDict []) with
  | Ok p => p
  | Raise _ => YDict []
  end.

Definition entry_flag (server_config : yaml) : yaml :=
  match py_get server_config "cache_tools_list" (YBool true) with
  | Ok flag => flag
  | Raise _ => YBool true
  end.

Definition entry_server (server_name : string) (server_config : yaml)
  : MCPServerStdio :=
  {| name := server_name;
     params := entry_params server_config;
     cache_tools_list := entry_flag server_config |}.


(** Every handle constructed, and every handle connected, is the one of an
    entry of [items] under that entry's name. *)
Definition from_entry (items : list (string * yaml)) (ev : event) : Prop :=
  match ev with
  | Construct n p flag _ =>
      exists c, In (n, c) items /\ p = entry_params c /\ flag = entry_flag c
  | Connect server _ =>
      exists c, In (name server, c) items /\ server = entry_server (name server) c
  | _ => True
  end.

(** The state [s] with [evs] added to its trace. *)
Definition append (s : state) (evs : list event) : state :=
  {| _servers := _servers s; _tools := _tools s; _config := _config s;
     trace := trace s ++ evs |}.

(** Every entry has the documented shape. *)
Definition valid_entries (items : list (string * yaml)) : Prop :=
  forall n c, In (n, c) items -> valid_entry c = true.

(** The constructor accepts every entry, whenever it is called. *)
Definition constructible (E : env) (items : list (string * yaml)) : Prop :=
  forall n c tr, In (n, c) items ->
    env_construct E tr n (entry_params c) (entry_flag c) = Ok tt.

(** Connecting to the server of an entry and fetching its tools succeed,
    whenever they are called. *)
Definition connectable (E : env) (items : list (string * yaml)) : Prop :=
  forall n c tr, In (n, c) items ->
    env_connect E tr (entry_server n c) = Ok tt /\
    exists tools, env_list_tools E tr (entry_server n c) = Ok tools.

(** ** Transition properties *)

(** [stable R m]: running [m] takes a state to an [R]-related one, whether
    [m] returns or raises. *)
Definition stable (R : state -> state -> Prop) {A} (m : M A) : Prop :=
  forall s, R s (snd (m s)).

Class Rely (R : state -> state -> Prop) : Prop := {
  rely_refl : forall s, R s s;
  rely_trans : forall s1 s2 s3, R s1 s2 -> R s2 s3 -> R s1 s3
}.

(** The trace only grows, by events that satisfy [G]. *)
Definition extends (G : event -> Prop) (s s' : state) : Prop :=
  exists new, trace s' = trace s ++ new /\ Forall G new.

(** A property of states is kept. *)
Definition keeps (P : state -> Prop) (s s' : state) : Prop :=
  P s -> P s'.

(** The dictionaries are left as they are. *)
Definition same_dicts (s s' : state) : Prop :=
  _servers s' = _servers s /\ _tools s' = _tools s.

(** The stored configuration is left as it is. *)
Definition same_config (s s' : state) : Prop := _config s' = _config s.

(** Events that leave [last_fetched] as it is: all but a successful
    [list_tools] and the last line of [close]. *)
Definition quiet (ev : event) : Prop :=
  match ev with
  | ListTools _ (Ok _) => False
  | Print CloseDone => False
  | _ => True
  end.

(** What holds between any two public operations. *)
Definition cache_covers (s : state) : Prop :=
  forall n, PyDict.contains n (_servers s) = true ->
            PyDict.contains n (_tools s) = true.

Definition names_passed (s : state) : Prop :=
  forall n, PyDict.contains n (_servers s) = true \/
            PyDict.contains n (_tools s) = true ->
            passed_to_add_server n (trace s).

Definition cache_is_last_fetched (s : state) : Prop :=
  forall n, PyDict.get n (_tools s) = last_fetched n (trace s).

Definition consistent (s : state) : Prop :=
  state_wf s /\ cache_covers s /\ names_passed s /\ cache_is_last_fetched s.

(** ** Further observations *)



Definition no_open (ev : event) : Prop :=
  match ev with
  | Open _ _ => False
  | _ => True
  end.

(** Whatever is under the name [m] stays there, in both dictionaries. *)
Definition same_entry (m : string) (s s' : state) : Prop :=
  PyDict.get m (_servers s') = PyDict.get m (_servers s) /\
  PyDict.get m (_tools s') = PyDict.get m (_tools s).

(** The cache under the name [m] stays as it is. *)
Definition same_cache (m : string) (s s' : state) : Prop :=
  PyDict.get m (_tools s') = PyDict.get m (_tools s).

(** Every handle in [_servers] has answered [connect] and [list_tools]. *)
Definition connected_and_listed (s : state) : Prop :=
  forall n h, In (n, h) (_servers s) ->
    In (Connect h (Ok tt)) (trace s) /\
    exists tools, In (ListTools h (Ok tools)) (trace s).

(** [cleanup] never fails. *)
Definition graceful (E : env) : Prop :=
  forall tr h, env_cleanup E tr h = Ok tt.

(** [E] with every configuration file missing. *)
Definition without_files (E : env) : env :=
  {| module_dir := module_dir E;
     env_open := fun _ _ => Raise (External "FileNotFoundError");
     env_construct := env_construct E;
     env_connect := env_connect E;
     env_list_tools := env_list_tools E;
     env_all_function_tools := env_all_function_tools E;
     env_cleanup := env_cleanup E;
     env_process := env_process E;
     env_terminate := env_terminate E;
     env_poll := env_poll E;
     env_kill := env_kill E |}.

(** What must have happened just before the process of [h] is killed,
    latest first: [poll] said it was still running, after the wait, after a
    [terminate] that returned, on a handle that has a process and whose
    [cleanup] failed. *)
Definition last_resort (h : MCPServerStdio) (before : list event) : Prop :=
  match before with
  | Poll h1 (Ok true) :: Sleep :: Terminate h2 (Ok tt)
      :: Process h3 (Ok true) :: Print (CleanupError _ _)
      :: Cleanup h4 (Raise _) :: _ =>
      h1 = h /\ h2 = h /\ h3 = h /\ h4 = h
  | _ => False
  end.

(** Every [kill] in a trace, given latest event first, is a last resort. *)
Fixpoint kills_justified (rev_trace : list event) : Prop :=
  match rev_trace with
  | [] => True
  | Kill h _ :: before => last_resort h before /\ kills_justified before
  | _ :: before => kills_justified before
  end.

(** [E] with every clean-up failing and every process surviving
    [terminate]. *)
Definition with_stubborn_processes (E : env) : env :=
  {| module_dir := module_dir E;
     env_open := env_open E;
     env_construct := env_construct E;
     env_connect := env_connect E;
     env_list_tools := env_list_tools E;
     env_all_function_tools := env_all_function_tools E;
     env_cleanup := fun _ _ => Raise (External "cleanup");
     env_process := fun _ _ => Ok true;
     env_terminate := fun _ _ => Ok tt;
     env_poll := fun _ _ => Ok true;
     env_kill := fun _ _ => Ok tt |}.

(** The specification's wording of the same notion, for comparison: the
    tool sequence most recently fetched for [name], with no regard to any
    [close] in between. *)
Definition observe_ever (name : string)
    (st : option string * option (list tool)) (ev : event)
  : option string * option (list tool) :=
  match ev with
  | Print (FetchingTools n) => (Some n, snd st)
  | Print (Refreshing n) => (Some n, snd st)
  | ListTools _ (Ok tools) =>
      (None,
       match fst st with
       | Some n => if String.eqb n name then Some tools else snd st
       | None => snd st
       end)
  | _ => (None, snd st)
  end.

Definition last_fetched_ever (name : string) (tr : list event)
  : option (list tool) :=
  snd (fold_left (observe_ever name) tr (None, None)).

(** * Facts *)

(** ** Dictionaries *)

Module PyDictFacts.
Import PyDict.

Section Facts.
Context {V : Type}.
Implicit Types (d : t V) (k : string) (v : V).

Lemma get_set_same k v d : get k (set k v d) = Some v.
Proof.
  induction d as [|[k' v'] d IH]; simpl.
  - now rewrite String.eqb_refl.
  - destruct (String.eqb k k') eqn:Hk; simpl; rewrite ?Hk, ?String.eqb_refl; auto.
Qed.

Lemma get_set_other k k' v d : k <> k' -> get k' (set k v d) = get k' d.
Proof.
  intros Hne. induction d as [|[k0 v0] d IH]; simpl.
  - destruct (String.eqb_spec k' k); congruence.
  - destruct (String.eqb_spec k k0) as [->|Hk]; simpl.
    + destruct (String.eqb_spec k' k0); congruence.
    + now rewrite IH.
Qed.

Lemma get_del_other k k' d : k <> k' -> get k' (del k d) = get k' d.
Proof.
  intros Hne. induction d as [|[k0 v0] d IH]; simpl; auto.
  destruct (String.eqb_spec k k0) as [->|Hk]; simpl.
  - destruct (String.eqb_spec k' k0); congruence.
  - now rewrite IH.
Qed.

Lemma get_None_iff k d : get k d = None <-> ~ In k (keys d).
Proof.
  induction d as [|[k0 v0] d IH]; simpl.
  - tauto.
  - destruct (String.eqb_spec k k0) as [->|Hk].
    + split; [discriminate | intros H; exfalso; auto].
    + rewrite IH. split; intros H; [intros [?|?]; [congruence | auto] | auto].
Qed.

Lemma contains_true_iff k d : contains k d = true <-> In k (keys d).
Proof.
  unfold contains. destruct (get k d) eqn:Hg.
  - split; auto. intros _.
    destruct (in_dec string_dec k (keys d)) as [|Hn]; auto.
    apply get_None_iff in Hn. congruence.
  - apply get_None_iff in Hg. split; [discriminate | tauto].
Qed.

Lemma get_del_same k d : wf d -> get k (del k d) = None.
Proof.
  unfold wf. induction d as [|[k0 v0] d IH]; simpl; auto.
  intros Hnd. inversion Hnd as [|? ? Hnin Hnd']; subst.
  destruct (String.eqb_spec k k0) as [->|Hk]; simpl.
  - now apply get_None_iff.
  - destruct (String.eqb_spec k k0); [congruence | auto].
Qed.

Lemma keys_set k v d :
  keys (set k v d) = if contains k d then keys d else keys d ++ [k].
Proof.
  unfold contains. induction d as [|[k0 v0] d IH]; simpl; auto.
  destruct (String.eqb_spec k k0) as [->|Hk]; simpl; auto.
  rewrite IH. now destruct (get k d).
Qed.

Lemma in_keys_del k k' d : In k' (keys (del k d)) -> In k' (keys d).
Proof.
  induction d as [|[k0 v0] d IH]; simpl; auto.
  destruct (String.eqb k k0); simpl; intuition.
Qed.

Lemma wf_set k v d : wf d -> wf (set k v d).
Proof.
  unfold wf. rewrite keys_set. intros Hnd.
  destruct (contains k d) eqn:Hc; auto.
  assert (Hn : ~ In k (keys d)).
  { intros Hin. apply contains_true_iff in Hin. congruence. }
  clear Hc. induction (keys d) as [|x l IH]; simpl.
  - constructor; [intros [] | constructor].
  - inversion Hnd; subst. constructor.
    + rewrite in_app_iff. simpl. intros [?|[?|[]]]; subst; simpl in *; tauto.
    + apply IH; auto. simpl in Hn. tauto.
Qed.

Lemma wf_del k d : wf d -> wf (del k d).
Proof.
  unfold wf. induction d as [|[k0 v0] d IH]; simpl; auto.
  intros Hnd. inversion Hnd; subst.
  destruct (String.eqb k k0); simpl; auto.
  constructor; auto. intros Hin. apply in_keys_del in Hin. auto.
Qed.

Lemma contains_set k k' v d :
  contains k' (set k v d) = (String.eqb k k' || contains k' d)%bool.
Proof.
  unfold contains. destruct (String.eqb_spec k k') as [->|Hne]; simpl.
  - now rewrite get_set_same.
  - now rewrite get_set_other.
Qed.

Lemma contains_del k k' d :
  wf d ->
  contains k' (del k d) = (negb (String.eqb k k') && contains k' d)%bool.
Proof.
  intros Hwf. unfold contains.
  destruct (String.eqb_spec k k') as [->|Hne]; simpl.
  - now rewrite get_del_same.
  - now rewrite get_del_other.
Qed.


End Facts.

End PyDictFacts.

(** ** Loops *)

Section Loops.
Context {A : Type} (body : A -> M unit).

(** What every iteration preserves, raising or not, the loop preserves. *)
Lemma for_each_preserves (P : state -> Prop) (l : list A) :
  (forall x s, In x l -> P s -> P (snd (body x s))) ->
  forall s, P s -> P (snd (for_each l body s)).
Proof.
  induction l as [|x l IH]; intros Hbody s Hs; simpl; auto.
  unfold bind. specialize (Hbody x s (or_introl eq_refl) Hs) as Hx.
  destruct (body x s) as [[[]|e] s1]; simpl in *; [|exact Hx].
  apply IH; [|exact Hx]. intros y s' Hy. apply Hbody. now right.
Qed.

(** A loop whose iterations never raise runs to its end; [I rest] holds
    when [rest] is still to be processed. *)
Lemma for_each_total (I : list A -> state -> Prop) :
  (forall x rest s, I (x :: rest) s ->
     fst (body x s) = Ok tt /\ I rest (snd (body x s))) ->
  forall l s, I l s ->
    fst (for_each l body s) = Ok tt /\ I [] (snd (for_each l body s)).
Proof.
  intros Hbody. induction l as [|x l IH]; intros s Hs; simpl; auto.
  unfold bind. destruct (Hbody x l s Hs) as [Hr Hi].
  destruct (body x s) as [r s1]; simpl in *; subst r. auto.
Qed.

End Loops.

(** ** [add_server], case by case *)

Section ManagerFacts.
Variable E : env.

Lemma add_server_connect_fails name server s e :
  connect_answer E name server s = Raise e ->
  add_server E name server s =
    (Raise e,
     {| _servers := if PyDict.contains name (_servers s)
                    then PyDict.del name (_servers s) else _servers s;
        _tools := _tools s;
        _config := _config s;
        trace := trace s ++ [Print (Connecting name);
                             Connect server (Raise e);
                             Print (AddError name e)] |}).
Proof.
  unfold connect_answer, add_server, try_except, bind, print, emit, call,
    gets, set_servers, throw, ret. simpl. intros ->. simpl.
  rewrite <- !app_assoc. simpl.
  now destruct (PyDict.contains name (_servers s)).
Qed.

Lemma add_server_fetch_fails name server s e :
  connect_answer E name server s = Ok tt ->
  fetch_answer E name server s = Raise e ->
  add_server E name server s =
    (Raise e,
     {| _servers := PyDict.del name (PyDict.set name server (_servers s));
        _tools := _tools s;
        _config := _config s;
        trace := trace s ++ [Print (Connecting name);
                             Connect server (Ok tt);
                             Print (FetchingTools name);
                             ListTools server (Raise e);
                             Print (AddError name e)] |}).
Proof.
  unfold connect_answer, fetch_answer, add_server, try_except, bind, print,
    emit, call, gets, set_servers, set_tools, throw, ret. simpl.
  intros -> Hf. simpl. rewrite <- !app_assoc. simpl. rewrite Hf. simpl.
  rewrite <- !app_assoc. simpl.
  unfold PyDict.contains. now rewrite PyDictFacts.get_set_same.
Qed.

Lemma add_server_succeeds name server s tools :
  connect_answer E name server s = Ok tt ->
  fetch_answer E name server s = Ok tools ->
  add_server E name server s =
    (Ok tt,
     {| _servers := PyDict.set name server (_servers s);
        _tools := PyDict.set name tools (_tools s);
        _config := _config s;
        trace := trace s ++ [Print (Connecting name);
                             Connect server (Ok tt);
                             Print (FetchingTools name);
                             ListTools server (Ok tools);
                             Print (FetchedTools name (length tools))] |}).
Proof.
  unfold connect_answer, fetch_answer, add_server, try_except, bind, print,
    emit, call, gets, set_servers, set_tools, throw, ret. simpl.
  intros -> Hf. simpl. rewrite <- !app_assoc. simpl. rewrite Hf. simpl.
  now rewrite <- !app_assoc.
Qed.

Lemma add_server_cases name server s :
  add_outcome E name server s (fst (add_server E name server s))
                            (snd (add_server E name server s)).
Proof.
  destruct (connect_answer E name server s) as [[]|e] eqn:Hc.
  - destruct (fetch_answer E name server s) as [tools|e] eqn:Hf.
    + rewrite (add_server_succeeds _ _ _ _ Hc Hf). now constructor.
    + rewrite (add_server_fetch_fails _ _ _ _ Hc Hf). now constructor.
  - rewrite (add_server_connect_fails _ _ _ _ Hc). now constructor.
Qed.

End ManagerFacts.

(** ** Rules for transition properties *)

#[export] Instance extends_rely (G : event -> Prop) : Rely (extends G).
Proof.
  split.
  - intros s. exists []. now rewrite app_nil_r.
  - intros s1 s2 s3 (n1 & H1 & G1) (n2 & H2 & G2). exists (n1 ++ n2).
    rewrite H2, H1, app_assoc. split; auto. now apply Forall_app.
Qed.

#[export] Instance keeps_rely (P : state -> Prop) : Rely (keeps P).
Proof. split; unfold keeps; auto. Qed.

#[export] Instance same_dicts_rely : Rely same_dicts.
Proof.
  split; unfold same_dicts; auto.
  intros s1 s2 s3 [-> ->] [-> ->]. auto.
Qed.

#[export] Instance same_config_rely : Rely same_config.
Proof. split; unfold same_config; congruence. Qed.

Section StableRules.
Context (R : state -> state -> Prop) `{!Rely R}.

Lemma stable_ret {A} (a : A) : stable R (ret a).
Proof. intros s. apply rely_refl. Qed.

Lemma stable_throw {A} (e : exn) : stable R (@throw A e).
Proof. intros s. apply rely_refl. Qed.

Lemma stable_lift {A} (r : result A) : stable R (lift r).
Proof. intros s. apply rely_refl. Qed.

Lemma stable_gets {A} (f : state -> A) : stable R (gets f).
Proof. intros s. apply rely_refl. Qed.

Lemma stable_bind {A B} (m : M A) (k : A -> M B) :
  stable R m -> (forall a, stable R (k a)) -> stable R (bind m k).
Proof.
  intros Hm Hk s. unfold bind. specialize (Hm s).
  destruct (m s) as [[a|e] s1]; simpl in *; auto.
  eapply rely_trans; [exact Hm | apply Hk].
Qed.

Lemma stable_try_except {A} (m : M A) (h : exn -> M A) :
  stable R m -> (forall e, stable R (h e)) -> stable R (try_except m h).
Proof.
  intros Hm Hh s. unfold try_except. specialize (Hm s).
  destruct (m s) as [[a|e] s1]; simpl in *; auto.
  eapply rely_trans; [exact Hm | apply Hh].
Qed.

Lemma stable_try_finally {A} (m : M A) (f : M unit) :
  stable R m -> stable R f -> stable R (try_finally m f).
Proof.
  intros Hm Hf s. unfold try_finally. specialize (Hm s).
  destruct (m s) as [r s1]. specialize (Hf s1). simpl in *.
  destruct (f s1) as [[u|e] s2]; simpl in *;
    eapply rely_trans; eauto.
Qed.

Lemma stable_for_each {A} (l : list A) (body : A -> M unit) :
  (forall x, In x l -> stable R (body x)) -> stable R (for_each l body).
Proof.
  induction l as [|x l IH]; intros Hb; simpl.
  - apply stable_ret.
  - apply stable_bind; [apply Hb; now left|].
    intros _. apply IH. intros y Hy. apply Hb. now right.
Qed.

End StableRules.

(** Break a method into its primitive steps; [leaf] gets the first try. *)
Ltac stable_steps_with leaf :=
  repeat first
    [ leaf
    | apply stable_ret; [exact _]
    | apply stable_throw; [exact _]
    | apply stable_lift; [exact _]
    | apply stable_gets; [exact _]
    | apply stable_bind; [exact _ | | intros ?]
    | apply stable_try_except; [exact _ | | intros ?]
    | apply stable_try_finally; [exact _ | | ]
    | match goal with
      | |- stable _ (if ?b then _ else _) => destruct b
      end ].

Ltac stable_steps := stable_steps_with fail.

(** *** Growing the trace *)

Lemma extends_emit G ev : G ev -> stable (extends G) (emit ev).
Proof. intros H s. exists [ev]. simpl. auto. Qed.

Lemma extends_call G {A} (ask : list event -> result A) record :
  (forall r, G (record r)) -> stable (extends G) (call ask record).
Proof. intros H s. exists [record (ask (trace s))]. simpl. auto. Qed.

Lemma extends_set_config G c : stable (extends G) (set_config c).
Proof. intros s. exists []. simpl. now rewrite app_nil_r. Qed.

Lemma extends_set_servers G d : stable (extends G) (set_servers d).
Proof. intros s. exists []. simpl. now rewrite app_nil_r. Qed.

Lemma extends_set_tools G d : stable (extends G) (set_tools d).
Proof. intros s. exists []. simpl. now rewrite app_nil_r. Qed.

Ltac extends_steps :=
  stable_steps;
  repeat first
    [ apply extends_set_config | apply extends_set_servers
    | apply extends_set_tools
    | apply extends_emit | apply extends_call; intros ? ];
  simpl; auto.

(** *** Leaving the dictionaries alone *)

Lemma same_dicts_emit ev : stable same_dicts (emit ev).
Proof. intros s. split; reflexivity. Qed.

Lemma same_dicts_call {A} (ask : list event -> result A) record :
  stable same_dicts (call ask record).
Proof. intros s. split; reflexivity. Qed.

Lemma same_dicts_set_config c : stable same_dicts (set_config c).
Proof. intros s. split; reflexivity. Qed.

Ltac same_dicts_steps :=
  stable_steps;
  repeat first
    [ apply same_dicts_emit | apply same_dicts_call
    | apply same_dicts_set_config ].

(** ** [add_server] *)

Lemma add_server_raises_iff E name server s e :
  fst (add_server E name server s) = Raise e <-> add_fails E name server s e.
Proof.
  unfold add_fails. split.
  - intros H. destruct (add_server_cases E name server s); try discriminate;
      inversion H; subst; auto.
  - intros [Hc|[Hc Hf]].
    + now rewrite (add_server_connect_fails _ _ _ _ _ Hc).
    + now rewrite (add_server_fetch_fails _ _ _ _ _ Hc Hf).
Qed.

Lemma add_server_failed_servers E name server s e :
  PyDict.wf (_servers s) ->
  add_fails E name server s e ->
  PyDict.get name (_servers (snd (add_server E name server s))) = None /\
  _tools (snd (add_server E name server s)) = _tools s.
Proof.
  intros Hwf [Hc|[Hc Hf]].
  - rewrite (add_server_connect_fails _ _ _ _ _ Hc). simpl. split; auto.
    destruct (PyDict.contains name (_servers s)) eqn:Hin.
    + now apply PyDictFacts.get_del_same.
    + unfold PyDict.contains in Hin. now destruct (PyDict.get name (_servers s)).
  - rewrite (add_server_fetch_fails _ _ _ _ _ Hc Hf). simpl. split; auto.
    apply PyDictFacts.get_del_same. now apply PyDictFacts.wf_set.
Qed.

Lemma add_server_no_shutdown E name server :
  stable (extends no_shutdown) (add_server E name server).
Proof. unfold add_server. extends_steps. Qed.

(** C3.  When the connect step or the first tool fetch of
    [add_server name server] raises [e], [add_server] raises that same [e]
    to its caller, and afterwards [name] is not a key of [_servers]:
    [get_server name] returns [None]. *)
Theorem add_server_failure_propagates E name server s e :
  PyDict.wf (_servers s) ->
  add_fails E name server s e ->
  fst (add_server E name server s) = Raise e /\
  PyDict.get name (_servers (snd (add_server E name server s))) = None /\
  fst (get_server name (snd (add_server E name server s))) = Ok None.
Proof.
  intros Hwf Hfail.
  destruct (add_server_failed_servers E name server s e Hwf Hfail) as [Hg _].
  split; [now apply add_server_raises_iff|]. split; [exact Hg|].
  unfold get_server, bind, gets, ret. simpl. now rewrite Hg.
Qed.

Lemma add_server_failure_propagates_witness :
  fst (add_server (Sample.world Sample.config2) "x" (Sample.server "x" "bad")
         init) = Raise (External "connect") /\
  fst (get_server "x"
         (snd (add_server (Sample.world Sample.config2) "x"
                 (Sample.server "x" "bad") init))) = Ok None.
Proof.
  assert (Hwf : PyDict.wf (_servers init)) by constructor.
  assert (Hfail : add_fails (Sample.world Sample.config2) "x"
                    (Sample.server "x" "bad") init (External "connect"))
    by (left; reflexivity).
  destruct (add_server_failure_propagates _ _ _ _ _ Hwf Hfail) as (H1 & _ & H3).
  split; [exact H1 | exact H3].
Defined.

(** C9.  When [name] is registered with a handle and a cached tool
    sequence and [add_server name server] fails, the old handle is gone from
    [_servers] although no cleanup, terminate or kill was issued for it, and
    the old cached sequence is still in [_tools]: [get_server name] returns
    [None] and [get_server_tools name] the stale sequence. *)
Theorem failed_readd_drops_handle_keeps_cache E name old cached server s e :
  PyDict.wf (_servers s) ->
  PyDict.get name (_servers s) = Some old ->
  PyDict.get name (_tools s) = Some cached ->
  add_fails E name server s e ->
  fst (get_server name (snd (add_server E name server s))) = Ok None /\
  fst (get_server_tools name (snd (add_server E name server s)))
    = Ok (Some cached) /\
  extends no_shutdown s (snd (add_server E name server s)).
Proof.
  intros Hwf Hold Hcached Hfail.
  destruct (add_server_failed_servers E name server s e Hwf Hfail) as [Hg Ht].
  repeat split.
  - unfold get_server, bind, gets, ret. simpl. now rewrite Hg.
  - unfold get_server_tools, bind, gets, ret. simpl. now rewrite Ht, Hcached.
  - apply add_server_no_shutdown.
Qed.

Lemma failed_readd_drops_handle_keeps_cache_witness :
  let E := Sample.world Sample.config2 in
  let s := snd (add_server E "x" (Sample.server "x" "good") init) in
  fst (get_server "x" s) = Ok (Some (Sample.server "x" "good")) /\
  fst (get_server "x" (snd (add_server E "x" (Sample.server "x" "bad") s)))
    = Ok None /\
  fst (get_server_tools "x"
         (snd (add_server E "x" (Sample.server "x" "bad") s)))
    = Ok (Some (Sample.tools_of (Sample.server "x" "good"))).
Proof.
  intros E s.
  assert (Hwf : PyDict.wf (_servers s)).
  { simpl. constructor; [intros [] | constructor]. }
  assert (Hfail : add_fails E "x" (Sample.server "x" "bad") s
                    (External "connect")) by (left; reflexivity).
  destruct (failed_readd_drops_handle_keeps_cache E "x"
              (Sample.server "x" "good")
              (Sample.tools_of (Sample.server "x" "good"))
              (Sample.server "x" "bad") s (External "connect")
              Hwf eq_refl eq_refl Hfail) as (H1 & H2 & _).
  split; [reflexivity | split; [exact H1 | exact H2]].
Defined.

(** ** [close] *)

(** A handler that only prints turns every outcome into a return. *)
Lemma try_except_print_total (m : M unit) (l : exn -> line) s :
  fst (try_except m (fun e => print (l e)) s) = Ok tt.
Proof.
  unfold try_except. destruct (m s) as [[[]|e] s1]; reflexivity.
Qed.

(** One iteration of [close]: whatever the clean-up and the fallback do,
    the iteration returns and the server's key is deleted. *)
Lemma close_server_head E name server rest s :
  _servers s = (name, server) :: rest ->
  fst (close_server E (name, server) s) = Ok tt /\
  _servers (snd (close_server E (name, server) s)) = rest /\
  _tools (snd (close_server E (name, server) s)) = _tools s.
Proof.
  intros Hs. unfold close_server, try_finally.
  match goal with
  | |- context [try_except ?m ?h s] =>
      pose proof (try_except_print_total m (fun e => CloseError name e) s) as Hr;
      assert (Hd : stable same_dicts (try_except m h))
  end.
  { same_dicts_steps. }
  specialize (Hd s). destruct Hd as [Hd1 Hd2].
  match goal with
  | |- context [try_except ?m ?h s] => destruct (try_except m h s) as [r s1]
  end.
  simpl in *. subst r. rewrite Hs in Hd1.
  unfold bind, gets, set_servers, ret. simpl. rewrite Hd1. simpl.
  unfold PyDict.contains. simpl. rewrite String.eqb_refl. simpl. auto.
Qed.

(** The loop of [close] runs to its end and empties [_servers]. *)
Lemma close_run E s :
  exists s1,
    for_each (_servers s) (close_server E) (append s [Print CloseStart])
      = (Ok tt, s1) /\
    _servers s1 = [] /\
    close E s =
      (Ok tt,
       {| _servers := _servers s1; _tools := PyDict.empty;
          _config := _config s1; trace := trace s1 ++ [Print CloseDone] |}).
Proof.
  destruct (for_each_total (close_server E)
              (fun rest st => _servers st = rest)) with
    (l := _servers s) (s := append s [Print CloseStart]) as [Hr Hd];
    [|reflexivity|].
  - intros [name server] rest st Hst.
    destruct (close_server_head E name server rest st Hst) as (H1 & H2 & _).
    auto.
  - destruct (for_each _ _ _) as [r s1] eqn:Hrun. simpl in *. subst r.
    exists s1. split; [reflexivity|]. split; [exact Hd|].
    unfold close, bind, print, emit, gets, set_tools. simpl.
    unfold append in Hrun. simpl in Hrun. now rewrite Hrun.
Qed.

(** C4.  [close] returns normally from every state and with every
    behaviour of the collaborators (failing clean-ups, failing fallback
    included), and leaves both [_servers] and [_tools] empty. *)
Theorem close_total_and_empties E s :
  fst (close E s) = Ok tt /\
  _servers (snd (close E s)) = PyDict.empty /\
  _tools (snd (close E s)) = PyDict.empty.
Proof.
  destruct (close_run E s) as (s1 & _ & Hd & ->). simpl. auto.
Qed.

(** Both servers registered, every clean-up and every [terminate] failing. *)
Example close_with_failing_cleanups :
  let E := Sample.flaky Sample.config2 in
  let s := run E [OpInitializeServers] in
  PyDict.keys (_servers s) = ["a"; "b"] /\
  fst (close E s) = Ok tt /\
  _servers (snd (close E s)) = [] /\
  _tools (snd (close E s)) = [] /\
  In (Print (CleanupError "b" (External "cleanup"))) (trace (snd (close E s))) /\
  In (Print (TerminateError "b" (External "terminate")))
     (trace (snd (close E s))).
Proof. vm_compute. tauto. Qed.

(** ** [initialize_servers] and the stored configuration *)

Lemma initialize_servers_loaded E s :
  truthy (_config s) = true ->
  initialize_servers E s = iterate_servers E s.
Proof.
  intros Ht. unfold initialize_servers, bind at 1 2, gets. simpl.
  rewrite Ht. reflexivity.
Qed.

Lemma load_config_run E config_path s :
  let path := match config_path with
              | None => default_config_path E
              | Some p => p
              end in
  load_config E config_path s =
    match env_open E (trace s ++ [Print (LoadingConfig path)]) path with
    | Ok c =>
        (Ok tt,
         {| _servers := _servers s; _tools := _tools s; _config := c;
            trace := trace s ++ [Print (LoadingConfig path);
                                 Open path (Ok c); Print ConfigLoaded] |})
    | Raise e =>
        (Raise e,
         {| _servers := _servers s; _tools := _tools s;
            _config := _config s;
            trace := trace s ++ [Print (LoadingConfig path);
                                 Open path (Raise e)] |})
    end.
Proof.
  intros path. unfold load_config. fold path.
  unfold bind, print, emit, call, set_config. simpl.
  destruct (env_open E _ path) as [c|e]; simpl; now rewrite <- !app_assoc.
Qed.

Lemma initialize_servers_not_loaded E s :
  truthy (_config s) = false ->
  initialize_servers E s = (load_config E None ;; iterate_servers E) s.
Proof.
  intros Ht. unfold initialize_servers, bind at 1 2, gets. simpl.
  now rewrite Ht.
Qed.

(** C10.  A stored configuration that is falsy (as after loading an empty
    document) counts as not loaded: [initialize_servers] first calls
    [load_config] with the default path.  When that load succeeds its
    answer replaces the stored configuration before the entries are
    iterated; when it fails, the exception leaves [initialize_servers]. *)
Theorem initialize_servers_reloads_falsy_config E s :
  truthy (_config s) = false ->
  initialize_servers E s = (load_config E None ;; iterate_servers E) s /\
  let path := default_config_path E in
  let tr := trace s ++ [Print (LoadingConfig path)] in
  match env_open E tr path with
  | Ok c =>
      initialize_servers E s =
        iterate_servers E
          {| _servers := _servers s; _tools := _tools s; _config := c;
             trace := trace s ++ [Print (LoadingConfig path);
                                  Open path (Ok c); Print ConfigLoaded] |}
  | Raise e =>
      initialize_servers E s =
        (Raise e,
         {| _servers := _servers s; _tools := _tools s;
            _config := _config s;
            trace := trace s ++ [Print (LoadingConfig path);
                                 Open path (Raise e)] |})
  end.
Proof.
  intros Ht.
  pose proof (initialize_servers_not_loaded E s Ht) as Heq.
  split; [exact Heq|]. simpl.
  destruct (env_open E _ _) as [c|e] eqn:Ho;
    rewrite Heq; unfold bind; rewrite load_config_run; simpl;
    rewrite Ho; reflexivity.
Qed.

Lemma initialize_servers_reloads_falsy_config_witness :
  let E := Sample.world Sample.config2 in
  let s := snd (load_config E (Some "empty.yaml") init) in
  _config s = YNone /\
  initialize_servers E s = (load_config E None ;; iterate_servers E) s /\
  _config (snd (initialize_servers E s)) = Sample.config2.
Proof.
  intros E s.
  assert (Hfalsy : truthy (_config s) = false) by reflexivity.
  destruct (initialize_servers_reloads_falsy_config E s Hfalsy) as [H1 H2].
  split; [reflexivity | split; [exact H1 | reflexivity]].
Defined.

(** ** What holds between operations *)

Lemma observe_quiet n new :
  Forall quiet new ->
  forall st, snd (fold_left (observe n) new st) = snd st.
Proof.
  induction 1 as [|ev new Hev _ IH]; intros st; simpl; auto.
  rewrite IH. destruct ev as [[]| | | |? []| | | | | | |]; simpl in *;
    auto; contradiction.
Qed.

Lemma last_fetched_quiet n tr new :
  Forall quiet new -> last_fetched n (tr ++ new) = last_fetched n tr.
Proof.
  intros H. unfold last_fetched. rewrite fold_left_app.
  now apply observe_quiet.
Qed.

(** A fetch announced for [name] and answered with [tools]. *)
Lemma last_fetched_fetch n tr pre name server tools post :
  Forall quiet pre -> Forall quiet post ->
  last_fetched n
    (tr ++ pre ++ [Print (FetchingTools name); ListTools server (Ok tools)]
        ++ post)
  = if String.eqb name n then Some tools else last_fetched n tr.
Proof.
  intros Hpre Hpost. unfold last_fetched.
  rewrite !fold_left_app, observe_quiet by assumption. simpl.
  destruct (String.eqb name n); auto. now apply observe_quiet.
Qed.

Lemma last_fetched_refresh n tr name server tools post :
  Forall quiet post ->
  last_fetched n
    (tr ++ [Print (Refreshing name); ListTools server (Ok tools)] ++ post)
  = if String.eqb name n then Some tools else last_fetched n tr.
Proof.
  intros Hpost. unfold last_fetched.
  rewrite !fold_left_app, observe_quiet by assumption. simpl.
  destruct (String.eqb name n); auto.
Qed.

Lemma get_set_eqb {V} name n (v : V) d :
  PyDict.get n (PyDict.set name v d)
  = if String.eqb name n then Some v else PyDict.get n d.
Proof.
  destruct (String.eqb_spec name n) as [->|Hne].
  - apply PyDictFacts.get_set_same.
  - now apply PyDictFacts.get_set_other.
Qed.

(** Dropping keys of [_servers] and growing the trace quietly. *)
Lemma consistent_shrink s s' :
  consistent s ->
  PyDict.wf (_servers s') ->
  (forall n, PyDict.contains n (_servers s') = true ->
             PyDict.contains n (_servers s) = true) ->
  _tools s' = _tools s ->
  extends quiet s s' ->
  consistent s'.
Proof.
  intros ([Hw1 Hw2] & Hcov & Hpass & Hlast) Hwf Hsub Ht (new & Htr & Hq).
  unfold consistent, state_wf, cache_covers, names_passed,
    cache_is_last_fetched, passed_to_add_server in *.
  rewrite Ht, Htr. repeat split; auto.
  - intros n [Hn|Hn]; apply in_or_app; left; apply Hpass; auto.
  - intros n. rewrite last_fetched_quiet; auto.
Qed.

Lemma consistent_silent s s' :
  consistent s -> same_dicts s s' -> extends quiet s s' -> consistent s'.
Proof.
  intros Hc [Hs Ht] Hq. apply (consistent_shrink s); auto.
  - rewrite Hs. apply Hc.
  - now rewrite Hs.
Qed.

Lemma keeps_consistent_emit ev :
  quiet ev -> stable (keeps consistent) (emit ev).
Proof.
  intros Hq s Hc. apply (consistent_silent s); auto.
  - split; reflexivity.
  - now apply extends_emit.
Qed.

Lemma keeps_consistent_call {A} (ask : list event -> result A) record :
  (forall r, quiet (record r)) -> stable (keeps consistent) (call ask record).
Proof.
  intros Hq s Hc. apply (consistent_silent s); auto.
  - split; reflexivity.
  - now apply extends_call.
Qed.

Lemma keeps_consistent_set_config c :
  stable (keeps consistent) (set_config c).
Proof.
  intros s Hc. apply (consistent_silent s); auto.
  - split; reflexivity.
  - apply extends_set_config.
Qed.

Lemma keeps_consistent_add_server E name server :
  stable (keeps consistent) (add_server E name server).
Proof.
  intros s Hc.
  destruct (add_server_cases E name server s) as [e Hcn|e Hcn Hf|tools Hcn Hf].
  - apply (consistent_shrink s); simpl; auto.
    + destruct (PyDict.contains name (_servers s));
        [apply PyDictFacts.wf_del|]; apply Hc.
    + intros n. destruct (PyDict.contains name (_servers s)) eqn:Hin; auto.
      rewrite PyDictFacts.contains_del by apply Hc.
      intros H. apply andb_prop in H. tauto.
    + eexists. split; [reflexivity|]. repeat constructor.
  - apply (consistent_shrink s); simpl; auto.
    + apply PyDictFacts.wf_del, PyDictFacts.wf_set, Hc.
    + intros n. rewrite PyDictFacts.contains_del
        by apply PyDictFacts.wf_set, Hc.
      rewrite PyDictFacts.contains_set.
      destruct (String.eqb name n); simpl; auto. discriminate.
    + eexists. split; [reflexivity|]. repeat constructor.
  - destruct Hc as ([Hw1 Hw2] & Hcov & Hpass & Hlast).
    unfold consistent, state_wf, cache_covers, names_passed,
      cache_is_last_fetched, passed_to_add_server in *. simpl.
    repeat split.
    + now apply PyDictFacts.wf_set.
    + now apply PyDictFacts.wf_set.
    + intros n. rewrite !PyDictFacts.contains_set.
      destruct (String.eqb name n); simpl; auto.
    + intros n. rewrite !PyDictFacts.contains_set.
      destruct (String.eqb_spec name n) as [->|Hne]; simpl.
      * intros _. apply in_or_app. right. now left.
      * intros H. apply in_or_app. left. auto.
    + intros n. rewrite get_set_eqb.
      pose proof (last_fetched_fetch n (trace s)
                    [Print (Connecting name); Connect server (Ok tt)]
                    name server tools
                    [Print (FetchedTools name (length tools))]) as Hl.
      simpl in Hl. rewrite Hl by (repeat constructor).
      now rewrite Hlast.
Qed.

(** One iteration of [refresh_tools], by the answer of [list_tools]. *)
Lemma refresh_server_run E name server s :
  refresh_server E (name, server) s =
    match env_list_tools E (trace s ++ [Print (Refreshing name)]) server with
    | Ok tools =>
        (Ok tt,
         {| _servers := _servers s;
            _tools := PyDict.set name tools (_tools s);
            _config := _config s;
            trace := trace s ++ [Print (Refreshing name);
                                 ListTools server (Ok tools);
                                 Print (Refreshed name (length tools))] |})
    | Raise e =>
        (Ok tt,
         {| _servers := _servers s;
            _tools := _tools s;
            _config := _config s;
            trace := trace s ++ [Print (Refreshing name);
                                 ListTools server (Raise e);
                                 Print (RefreshError name e)] |})
    end.
Proof.
  unfold refresh_server, try_except, bind, print, emit, call, gets,
    set_tools. simpl.
  destruct (env_list_tools E _ server) as [tools|e]; simpl;
    now rewrite <- !app_assoc.
Qed.

Lemma refresh_server_consistent E name server s :
  PyDict.contains name (_servers s) = true ->
  consistent s ->
  consistent (snd (refresh_server E (name, server) s)).
Proof.
  intros Hin Hc. rewrite refresh_server_run.
  destruct (env_list_tools E _ server) as [tools|e]; simpl.
  - destruct Hc as ([Hw1 Hw2] & Hcov & Hpass & Hlast).
    unfold consistent, state_wf, cache_covers, names_passed,
      cache_is_last_fetched, passed_to_add_server in *. simpl.
    repeat split; auto.
    + now apply PyDictFacts.wf_set.
    + intros n Hn. rewrite PyDictFacts.contains_set.
      rewrite (Hcov n Hn). apply orb_true_r.
    + intros n. rewrite PyDictFacts.contains_set. intros H.
      apply in_or_app. left. apply Hpass.
      destruct (String.eqb_spec name n) as [->|Hne]; simpl in H; auto.
    + intros n. rewrite get_set_eqb.
      pose proof (last_fetched_refresh n (trace s) name server tools
                    [Print (Refreshed name (length tools))]) as Hl.
      simpl in Hl. rewrite Hl by (repeat constructor).
      now rewrite Hlast.
  - apply (consistent_silent s); auto; [split; reflexivity|].
    eexists. split; [reflexivity|]. repeat constructor.
Qed.

Lemma refresh_server_servers E item s :
  _servers (snd (refresh_server E item s)) = _servers s.
Proof.
  destruct item as [name server]. rewrite refresh_server_run.
  now destruct (env_list_tools E _ server).
Qed.

Lemma keeps_consistent_refresh_tools E :
  stable (keeps consistent) (refresh_tools E).
Proof.
  intros s Hc. unfold refresh_tools, bind at 1 2, print, gets. simpl.
  assert (Hc0 : consistent (snd (emit (Print RefreshStart) s)))
    by (now apply keeps_consistent_emit).
  simpl in Hc0.
  apply (for_each_preserves (refresh_server E)
           (fun st => consistent st /\ _servers st = _servers s));
    [|now split].
  intros [name server] st Hin [Hst Hsrv]. split.
  - apply refresh_server_consistent; auto.
    rewrite Hsrv. apply PyDictFacts.contains_true_iff.
    change name with (fst (name, server)). now apply in_map.
  - now rewrite refresh_server_servers.
Qed.

(** The [finally] clause of [close]. *)
Lemma keeps_consistent_delete name :
  stable (keeps consistent)
    (d <- gets _servers ;;
     if PyDict.contains name d
     then set_servers (PyDict.del name d)
     else ret tt).
Proof.
  intros s Hc. unfold bind, gets, set_servers, ret. simpl.
  destruct (PyDict.contains name (_servers s)) eqn:Hin; simpl; auto.
  apply (consistent_shrink s); simpl; auto.
  - apply PyDictFacts.wf_del, Hc.
  - intros n. rewrite PyDictFacts.contains_del by apply Hc.
    intros H. apply andb_prop in H. tauto.
  - exists []. simpl. now rewrite app_nil_r.
Qed.

Ltac consistent_leaf :=
  first
    [ progress unfold try_add_server
    | apply keeps_consistent_add_server
    | apply keeps_consistent_delete
    | apply keeps_consistent_set_config
    | apply keeps_consistent_emit; exact I
    | apply keeps_consistent_call; intros ?; exact I ].

Lemma keeps_consistent_close_server E item :
  stable (keeps consistent) (close_server E item).
Proof.
  destruct item as [name server]. unfold close_server, terminate_process.
  stable_steps_with consistent_leaf.
Qed.

Lemma keeps_consistent_close E : stable (keeps consistent) (close E).
Proof.
  intros s Hc.
  destruct (close_run E s) as (s1 & Hrun & Hs & ->).
  assert (Hloop : stable (keeps consistent)
            (print CloseStart ;; d <- gets _servers ;;
             for_each d (close_server E))).
  { stable_steps_with consistent_leaf.
    apply stable_for_each; [exact _|]. intros x _.
    apply keeps_consistent_close_server. }
  specialize (Hloop s Hc).
  assert (Hs1 : snd ((print CloseStart ;; d <- gets _servers ;;
                      for_each d (close_server E)) s) = s1).
  { unfold bind, print, emit, gets. simpl.
    unfold append in Hrun. simpl in Hrun. now rewrite Hrun. }
  rewrite Hs1 in Hloop. destruct Hloop as ([Hw1 Hw2] & Hcov & Hpass & Hlast).
  unfold consistent, state_wf, cache_covers, names_passed,
    cache_is_last_fetched, passed_to_add_server in *. simpl.
  rewrite Hs. repeat split; auto; try constructor.
  - intros n [H|H]; discriminate.
  - intros n. unfold last_fetched. now rewrite fold_left_app.
Qed.

Lemma keeps_consistent_load_config E p :
  stable (keeps consistent) (load_config E p).
Proof. unfold load_config. stable_steps_with consistent_leaf. Qed.

Lemma keeps_consistent_initialize_server E item :
  stable (keeps consistent) (initialize_server E item).
Proof.
  destruct item as [server_name server_config]. unfold initialize_server.
  stable_steps_with consistent_leaf.
Qed.

Lemma keeps_consistent_initialize_servers E :
  stable (keeps consistent) (initialize_servers E).
Proof.
  unfold initialize_servers, iterate_servers.
  stable_steps_with
    ltac:(first [ consistent_leaf
                | apply keeps_consistent_load_config
                | apply stable_for_each;
                  [exact _ | intros ? _; apply keeps_consistent_initialize_server] ]).
Qed.

Lemma keeps_consistent_get_all_tools E :
  stable (keeps consistent) (get_all_tools E).
Proof. unfold get_all_tools. stable_steps_with consistent_leaf. Qed.

Lemma init_consistent : consistent init.
Proof.
  repeat split; try constructor; intros n; simpl; try discriminate.
  intros [H|H]; discriminate.
Qed.

Lemma exec_consistent E s o : consistent s -> consistent (exec E s o).
Proof.
  intros Hc. destruct o; simpl; auto.
  - now apply keeps_consistent_load_config.
  - now apply keeps_consistent_initialize_servers.
  - now apply keeps_consistent_add_server.
  - now apply keeps_consistent_get_all_tools.
  - now apply keeps_consistent_refresh_tools.
  - now apply keeps_consistent_close.
Qed.

Lemma reachable_consistent E s : reachable E s -> consistent s.
Proof.
  intros [ops ->]. unfold run.
  assert (H : forall s0, consistent s0 ->
                         consistent (fold_left (exec E) ops s0)).
  { induction ops as [|o ops IH]; simpl; auto.
    intros s0 H0. apply IH. now apply exec_consistent. }
  apply H, init_consistent.
Qed.

(** ** The tool cache between operations *)

Lemma last_fetched_before_close n tr :
  ~ In (Print CloseDone) tr -> last_fetched n tr = last_fetched_ever n tr.
Proof.
  unfold last_fetched, last_fetched_ever. generalize (@None string, @None (list tool)).
  induction tr as [|ev tr IH]; intros st Hno; simpl; auto.
  assert (Hev : observe n st ev = observe_ever n st ev).
  { destruct ev as [[]| | | |? []| | | | | | |]; try reflexivity.
    exfalso. apply Hno. now left. }
  rewrite Hev. apply IH. intros H. apply Hno. now right.
Qed.

(** C7, as the code has it.  After any sequence of public operations,
    [get_server_tools name] returns the tool sequence most recently fetched
    for [name] since the cache was last cleared by [close] ([None] when
    there is none), changes nothing and calls no collaborator.  It returns
    [None] for a name with which [add_server] was never entered, be it by
    a caller or by [initialize_servers]; for a name that is registered in
    [_servers] it returns a sequence, the one last fetched; and as long as
    no [close] has completed, what it returns is the sequence last fetched
    for [name] outright. *)
Theorem get_server_tools_returns_last_fetched E ops server_name :
  get_server_tools server_name (run E ops)
    = (Ok (last_fetched server_name (trace (run E ops))), run E ops) /\
  (~ passed_to_add_server server_name (trace (run E ops)) ->
   get_server_tools server_name (run E ops) = (Ok None, run E ops)) /\
  (PyDict.contains server_name (_servers (run E ops)) = true ->
   exists tools,
     last_fetched server_name (trace (run E ops)) = Some tools /\
     get_server_tools server_name (run E ops) = (Ok (Some tools), run E ops)) /\
  (~ In (Print CloseDone) (trace (run E ops)) ->
   get_server_tools server_name (run E ops)
     = (Ok (last_fetched_ever server_name (trace (run E ops))), run E ops)).
Proof.
  assert (Hc : consistent (run E ops))
    by (apply (reachable_consistent E); now exists ops).
  destruct Hc as (_ & Hcov & Hpass & Hlast).
  unfold get_server_tools, bind, gets, ret. simpl. split; [|split; [|split]].
  - now rewrite Hlast.
  - intros Hnot. specialize (Hpass server_name).
    unfold PyDict.contains in Hpass.
    destruct (PyDict.get server_name (_tools (run E ops))); auto.
    exfalso. apply Hnot, Hpass. now right.
  - intros Hin. apply Hcov in Hin. unfold PyDict.contains in Hin.
    rewrite <- Hlast.
    destruct (PyDict.get server_name (_tools (run E ops))) as [tools|];
      [eauto | discriminate].
  - intros Hno. now rewrite Hlast, (last_fetched_before_close _ _ Hno).
Qed.

Lemma get_server_tools_returns_last_fetched_witness :
  let E := Sample.flaky Sample.config2 in
  let ops := [OpInitializeServers; OpRefreshTools;
              OpAddServer "c" (Sample.server "c" "bad")] in
  fst (get_server_tools "a" (run E ops))
    = Ok (Some (Sample.tools_of (Sample.server "a" "good"))) /\
  get_server_tools "z" (run E ops) = (Ok None, run E ops) /\
  fst (get_server_tools "b" (run E ops))
    = Ok (last_fetched_ever "b" (trace (run E ops))).
Proof.
  intros E ops.
  destruct (get_server_tools_returns_last_fetched E ops "a") as [Ha _].
  destruct (get_server_tools_returns_last_fetched E ops "z") as (_ & Hz & _).
  destruct (get_server_tools_returns_last_fetched E ops "b")
    as (_ & _ & _ & Hb).
  split; [|split].
  - rewrite Ha. reflexivity.
  - apply Hz. unfold passed_to_add_server. vm_compute.
    intros H. repeat (destruct H as [H|H]; [discriminate H|]). exact H.
  - rewrite Hb; [reflexivity|]. vm_compute.
    intros H. repeat (destruct H as [H|H]; [discriminate H|]). exact H.
Defined.

(** C7 as the specification words it fails: [close] clears the cache, so
    a name that was passed to [add_server] and whose tools were fetched is
    answered with [None] afterwards, not with the sequence last fetched. *)
Lemma close_forgets_fetched_tools :
  ~ (forall E ops name,
       passed_to_add_server name (trace (run E ops)) ->
       fst (get_server_tools name (run E ops))
         = Ok (last_fetched_ever name (trace (run E ops)))).
Proof.
  intros H.
  specialize (H (Sample.world Sample.config2)
                [OpAddServer "x" (Sample.server "x" "good"); OpClose] "x").
  assert (Hp : passed_to_add_server "x"
                 (trace (run (Sample.world Sample.config2)
                           [OpAddServer "x" (Sample.server "x" "good");
                            OpClose])))
    by (left; reflexivity).
  specialize (H Hp). vm_compute in H. discriminate H.
Qed.

(** C2, as the code has it.  In every state reached through the public
    operations a name in [_servers] has an entry in [_tools]; and when the
    connect step of [add_server name server] fails, [name] is afterwards
    not in [_servers] while [_tools] is as it was before the call: [name]
    is in neither mapping unless an earlier fetch had cached tools for it. *)
Theorem handles_have_cache_entries E s :
  reachable E s ->
  (forall n, PyDict.contains n (_servers s) = true ->
             PyDict.contains n (_tools s) = true) /\
  (forall name server e,
     connect_answer E name server s = Raise e ->
     PyDict.get name (_servers (snd (add_server E name server s))) = None /\
     _tools (snd (add_server E name server s)) = _tools s).
Proof.
  intros Hr. apply (reachable_consistent E) in Hr.
  destruct Hr as ([Hw _] & Hcov & _). split; [exact Hcov|].
  intros name server e Hconn.
  apply (add_server_failed_servers E name server s e Hw). now left.
Qed.

Lemma handles_have_cache_entries_witness :
  let E := Sample.world Sample.config2 in
  let s := run E [OpInitializeServers] in
  PyDict.contains "a" (_tools s) = true /\
  PyDict.get "c" (_tools (snd (add_server E "c" (Sample.server "c" "bad") s)))
    = None.
Proof.
  intros E s.
  assert (Hr : reachable E s) by (now exists [OpInitializeServers]).
  destruct (handles_have_cache_entries E s Hr) as [Hcov Hfail].
  split.
  - apply Hcov. reflexivity.
  - destruct (Hfail "c" (Sample.server "c" "bad") (External "connect")
                eq_refl) as [_ Ht].
    rewrite Ht. reflexivity.
Defined.

(** C2 as the specification words it fails: a name whose connect step
    failed can still be in [_tools], with the sequence cached by an
    earlier successful [add_server] under that name. *)
Lemma failed_connect_keeps_cache_entry :
  ~ (forall E s name server e,
       reachable E s ->
       connect_answer E name server s = Raise e ->
       PyDict.get name (_servers (snd (add_server E name server s))) = None /\
       PyDict.get name (_tools (snd (add_server E name server s))) = None).
Proof.
  intros H.
  specialize (H (Sample.world Sample.config2)
                (run (Sample.world Sample.config2)
                   [OpAddServer "x" (Sample.server "x" "good")])
                "x" (Sample.server "x" "bad") (External "connect")).
  destruct H as [_ H].
  - now exists [OpAddServer "x" (Sample.server "x" "good")].
  - reflexivity.
  - discriminate H.
Qed.

(** ** [refresh_tools] *)

(** What [refresh_tools] has done once the servers [done] are processed:
    [new] is what it added to the trace, [t0] the cache it started from and
    [t] the cache now. *)
Lemma refresh_loop_invariant E (d : PyDict.t MCPServerStdio) s0 :
  PyDict.wf d ->
  fst (for_each d (refresh_server E) s0) = Ok tt /\
  _servers (snd (for_each d (refresh_server E) s0)) = _servers s0 /\
  exists new,
    trace (snd (for_each d (refresh_server E) s0)) = trace s0 ++ new /\
    (forall n e, In (Print (RefreshError n e)) new ->
       In n (PyDict.keys d) /\
       PyDict.get n (_tools (snd (for_each d (refresh_server E) s0)))
         = PyDict.get n (_tools s0)) /\
    (forall n server, In (n, server) d ->
       In (Print (Refreshing n)) new /\
       ((exists e, In (ListTools server (Raise e)) new /\
                   In (Print (RefreshError n e)) new) \/
        (exists tools,
           In (ListTools server (Ok tools)) new /\
           PyDict.get n (_tools (snd (for_each d (refresh_server E) s0)))
             = Some tools))).
Proof.
  intros Hwf.
  pose (I := fun (rest : list (string * MCPServerStdio)) (st : state) =>
    exists done new,
      d = done ++ rest /\
      _servers st = _servers s0 /\
      trace st = trace s0 ++ new /\
      (forall n, ~ In n (PyDict.keys done) ->
         PyDict.get n (_tools st) = PyDict.get n (_tools s0)) /\
      (forall n e, In (Print (RefreshError n e)) new ->
         In n (PyDict.keys done) /\
         PyDict.get n (_tools st) = PyDict.get n (_tools s0)) /\
      (forall n server, In (n, server) done ->
         In (Print (Refreshing n)) new /\
         ((exists e, In (ListTools server (Raise e)) new /\
                     In (Print (RefreshError n e)) new) \/
          (exists tools, In (ListTools server (Ok tools)) new /\
                         PyDict.get n (_tools st) = Some tools)))).
  destruct (for_each_total (refresh_server E) I) with (l := d) (s := s0)
    as [Hr Hi].
  - intros [name server] rest st
      (done & new & Hd & Hsrv & Htr & Hrest & Herr & Hdone).
    assert (Hfresh : ~ In name (PyDict.keys done)).
    { unfold PyDict.wf, PyDict.keys in Hwf. rewrite Hd, map_app in Hwf.
      simpl in Hwf. apply NoDup_remove_2 in Hwf. rewrite in_app_iff in Hwf.
      tauto. }
    assert (Hkeys : forall n, In n (PyDict.keys (done ++ [(name, server)]))
                              <-> In n (PyDict.keys done) \/ n = name).
    { intros n. unfold PyDict.keys. rewrite map_app, in_app_iff. simpl.
      intuition. }
    rewrite refresh_server_run.
    destruct (env_list_tools E _ server) as [tools|e]; simpl; split; auto;
      exists (done ++ [(name, server)]); eexists;
      (split; [now rewrite <- app_assoc|]);
      (split; [exact Hsrv|]);
      (split; [simpl; rewrite Htr, <- app_assoc; reflexivity|]); simpl.
    + split; [|split].
      * intros n Hn. rewrite Hkeys in Hn.
        rewrite PyDictFacts.get_set_other by (intros ->; tauto).
        apply Hrest. tauto.
      * intros n e H. apply in_app_or in H. simpl in H.
        destruct H as [H|[H|[H|[H|[]]]]]; try discriminate.
        apply Herr in H. destruct H as [Hin Hg]. split.
        -- apply Hkeys. now left.
        -- rewrite PyDictFacts.get_set_other by (intros ->; tauto). exact Hg.
      * intros n server0 H. apply in_app_or in H. destruct H as [H|[H|[]]].
        -- assert (Hne : name <> n).
           { intros ->. apply Hfresh. change n with (fst (n, server0)).
             now apply in_map. }
           apply Hdone in H.
           destruct H as [Hp [(e & H1 & H2)|(tl & H1 & H2)]];
             (split; [apply in_or_app; now left|]).
           ++ left. exists e. split; apply in_or_app; now left.
           ++ right. exists tl. split; [apply in_or_app; now left|].
              now rewrite PyDictFacts.get_set_other.
        -- inversion H; subst. split; [apply in_or_app; right; simpl; auto|].
           right. exists tools. split.
           ++ apply in_or_app. right. simpl. auto.
           ++ apply PyDictFacts.get_set_same.
    + split; [|split].
      * intros n Hn. rewrite Hkeys in Hn. apply Hrest. tauto.
      * intros n e0 H. apply in_app_or in H. simpl in H.
        destruct H as [H|[H|[H|[H|[]]]]]; try discriminate.
        -- apply Herr in H. destruct H as [Hin Hg]. split; auto.
           apply Hkeys. now left.
        -- inversion H; subst. split; [apply Hkeys; now right|].
           now apply Hrest.
      * intros n server0 H. apply in_app_or in H. destruct H as [H|[H|[]]].
        -- apply Hdone in H.
           destruct H as [Hp [(e0 & H1 & H2)|(tl & H1 & H2)]];
             (split; [apply in_or_app; now left|]).
           ++ left. exists e0. split; apply in_or_app; now left.
           ++ right. exists tl. split; [apply in_or_app; now left|exact H2].
        -- inversion H; subst. split; [apply in_or_app; right; simpl; auto|].
           left. exists e. split; apply in_or_app; right; simpl; auto.
  - exists [], []. simpl. rewrite app_nil_r.
    repeat split; auto; try contradiction; intros; contradiction.
  - destruct Hi as (done & new & Hd & Hsrv & Htr & Hrest & Herr & Hdone).
    rewrite app_nil_r in Hd. subst done.
    split; [exact Hr|]. split; [exact Hsrv|]. exists new. auto.
Qed.

(** C6.  [refresh_tools] never raises and leaves [_servers] as it is.  A
    server whose fetch raises has its iteration end normally with the
    failure printed and nothing else changed; every registered server is
    fetched, and ends either refreshed or with its failure printed; and a
    name whose failure was printed during the call has the cached sequence
    it had before the call and is still registered. *)
Theorem refresh_tools_keeps_stale_cache E s :
  PyDict.wf (_servers s) ->
  fst (refresh_tools E s) = Ok tt /\
  _servers (snd (refresh_tools E s)) = _servers s /\
  (forall name server st e,
     env_list_tools E (trace st ++ [Print (Refreshing name)]) server
       = Raise e ->
     refresh_server E (name, server) st =
       (Ok tt,
        {| _servers := _servers st; _tools := _tools st;
           _config := _config st;
           trace := trace st ++ [Print (Refreshing name);
                                 ListTools server (Raise e);
                                 Print (RefreshError name e)] |})) /\
  exists new,
    trace (snd (refresh_tools E s)) = trace s ++ new /\
    (forall name e, In (Print (RefreshError name e)) new ->
       PyDict.get name (_tools (snd (refresh_tools E s)))
         = PyDict.get name (_tools s) /\
       PyDict.contains name (_servers (snd (refresh_tools E s))) = true) /\
    (forall name server, In (name, server) (_servers s) ->
       In (Print (Refreshing name)) new /\
       ((exists e, In (ListTools server (Raise e)) new /\
                   In (Print (RefreshError name e)) new) \/
        (exists tools,
           In (ListTools server (Ok tools)) new /\
           PyDict.get name (_tools (snd (refresh_tools E s)))
             = Some tools))).
Proof.
  intros Hwf.
  destruct (refresh_loop_invariant E (_servers s) (snd (print RefreshStart s))
              Hwf) as (Hr & Hsrv & new & Htr & Herr & Hall).
  assert (Hrun : refresh_tools E s
                 = for_each (_servers s) (refresh_server E)
                     (snd (print RefreshStart s))) by reflexivity.
  rewrite Hrun. split; [exact Hr|]. split; [exact Hsrv|]. split.
  - intros name server st e Hf. rewrite refresh_server_run. now rewrite Hf.
  - exists (Print RefreshStart :: new). split.
    + rewrite Htr. simpl. now rewrite <- app_assoc.
    + split.
      * intros name e [H|H]; [discriminate|].
        destruct (Herr name e H) as [Hin Hg]. split; [exact Hg|].
        rewrite Hsrv. simpl. now apply PyDictFacts.contains_true_iff.
      * intros name server Hin. destruct (Hall name server Hin) as [Hp Hcases].
        split; [now right|].
        destruct Hcases as [(e & H1 & H2)|(tl & H1 & H2)].
        -- left. exists e. split; now right.
        -- right. exists tl. split; [now right | exact H2].
Qed.

Lemma refresh_tools_keeps_stale_cache_witness :
  let E := Sample.flaky Sample.config2 in
  let s := run E [OpInitializeServers] in
  fst (refresh_tools E s) = Ok tt /\
  _servers (snd (refresh_tools E s)) = _servers s /\
  In (Print (RefreshError "a" (External "list_tools")))
     (trace (snd (refresh_tools E s))) /\
  PyDict.get "a" (_tools (snd (refresh_tools E s)))
    = Some (Sample.tools_of (Sample.server "a" "good")).
Proof.
  intros E s.
  assert (Hwf : PyDict.wf (_servers s)).
  { unfold PyDict.wf. vm_compute.
    repeat constructor; simpl; intuition discriminate. }
  destruct (refresh_tools_keeps_stale_cache E s Hwf)
    as (Hr & Hsrv & _ & new & Htr & Herr & _).
  split; [exact Hr|]. split; [exact Hsrv|].
  assert (Hnew : new = skipn (length (trace s))
                             (trace (snd (refresh_tools E s)))).
  { rewrite Htr, skipn_app, skipn_all, Nat.sub_diag. reflexivity. }
  assert (Hin : In (Print (RefreshError "a" (External "list_tools"))) new).
  { rewrite Hnew. vm_compute. tauto. }
  split.
  - rewrite Htr. apply in_or_app. now right.
  - destruct (Herr _ _ Hin) as [Hg _]. rewrite Hg. reflexivity.
Defined.

(** ** One entry of [initialize_servers] *)

Lemma try_add_server_run E n server s :
  try_add_server E n server s =
    match fst (add_server E n server s) with
    | Ok _ => (Ok tt, append (snd (add_server E n server s)) [Print (InitOk n)])
    | Raise e =>
        (Ok tt, append (snd (add_server E n server s)) [Print (InitFailed n e)])
    end.
Proof.
  unfold try_add_server, try_except, bind.
  destruct (add_server E n server s) as [[[]|e] s1]; reflexivity.
Qed.

(** What [add_server] does to the two dictionaries and to the trace. *)
Lemma add_server_effect E n server s :
  state_wf s ->
  let r := fst (add_server E n server s) in
  let s' := snd (add_server E n server s) in
  state_wf s' /\
  (forall m, m <> n ->
     PyDict.get m (_servers s') = PyDict.get m (_servers s) /\
     PyDict.get m (_tools s') = PyDict.get m (_tools s)) /\
  (exists evs, trace s' = trace s ++ Print (Connecting n) :: evs) /\
  match r with
  | Ok _ =>
      _servers s' = PyDict.set n server (_servers s) /\
      exists tools, _tools s' = PyDict.set n tools (_tools s)
  | Raise e =>
      PyDict.get n (_servers s') = None /\ _tools s' = _tools s
  end.
Proof.
  intros [Hw1 Hw2]. simpl.
  destruct (add_server_cases E n server s) as [e Hc|e Hc Hf|tools Hc Hf];
    simpl.
  - split; [split; simpl; auto|].
    { destruct (PyDict.contains n (_servers s)); auto.
      now apply PyDictFacts.wf_del. }
    split.
    { intros m Hm. split; auto.
      destruct (PyDict.contains n (_servers s)); auto.
      apply PyDictFacts.get_del_other. congruence. }
    split.
    { eexists. reflexivity. }
    split; auto.
    destruct (PyDict.contains n (_servers s)) eqn:Hin.
    + now apply PyDictFacts.get_del_same.
    + unfold PyDict.contains in Hin.
      now destruct (PyDict.get n (_servers s)).
  - split; [split; simpl; auto|].
    { now apply PyDictFacts.wf_del, PyDictFacts.wf_set. }
    split.
    { intros m Hm. split; auto.
      rewrite PyDictFacts.get_del_other, PyDictFacts.get_set_other;
        congruence. }
    split.
    { eexists. reflexivity. }
    split; auto.
    now apply PyDictFacts.get_del_same, PyDictFacts.wf_set.
  - split; [split; simpl; now apply PyDictFacts.wf_set|].
    split.
    { intros m Hm. rewrite !PyDictFacts.get_set_other by congruence. auto. }
    split.
    { eexists. reflexivity. }
    split; eauto.
Qed.

Lemma valid_entry_inv c :
  valid_entry c = true ->
  exists d p command a ss,
    c = YDict d /\
    PyDict.get "params" d = Some (YDict p) /\
    PyDict.get "command" p = Some (YStr command) /\
    PyDict.get "args" p = Some (YList a) /\
    all_strings a = Some ss.
Proof.
  unfold valid_entry. destruct c as [| | | | |d]; try discriminate.
  destruct (PyDict.get "params" d) as [[| | | | |p]|] eqn:Hp;
    try discriminate.
  destruct (PyDict.get "command" p) as [[| | |command| |]|] eqn:Hc;
    try discriminate.
  destruct (PyDict.get "args" p) as [[| | | |a|]|] eqn:Ha; try discriminate.
  destruct (all_strings a) as [ss|] eqn:Hs; try discriminate.
  intros _. exists d, p, command, a, ss. auto.
Qed.

(** A well-shaped entry gets as far as the constructor. *)
Lemma initialize_server_valid E n c s :
  valid_entry c = true ->
  exists command args,
    let s1 := append s [Print (Initializing n);
                        Print (CommandLine command args)] in
    initialize_server E (n, c) s =
      match env_construct E (trace s1) n (entry_params c) (entry_flag c) with
      | Ok _ =>
          try_add_server E n (entry_server n c)
            (append s [Print (Initializing n);
                       Print (CommandLine command args);
                       Construct n (entry_params c) (entry_flag c) (Ok tt)])
      | Raise e =>
          (Raise e,
           append s [Print (Initializing n);
                     Print (CommandLine command args);
                     Construct n (entry_params c) (entry_flag c) (Raise e)])
      end.
Proof.
  intros Hv.
  destruct (valid_entry_inv c Hv) as (d & p & command & a & ss & -> & Hp & Hc & Ha & Hs).
  exists (YStr command), (String.concat " " ss).
  unfold initialize_server, entry_params, entry_flag, entry_server, append.
  unfold bind at 1. unfold print at 1, emit. simpl.
  unfold bind, lift, print, emit, call. simpl.
  rewrite Hp. simpl. rewrite Hc, Ha. simpl. rewrite Hs. simpl.
  rewrite <- !app_assoc. simpl.
  destruct (env_construct E _ n (YDict p) _) as [[]|e]; simpl;
    unfold entry_params, entry_flag; simpl; rewrite ?Hp; reflexivity.
Qed.

Lemma wf_fresh_key {V} (done rest : list (string * V)) n v :
  PyDict.wf (done ++ (n, v) :: rest) -> ~ In n (PyDict.keys done).
Proof.
  unfold PyDict.wf, PyDict.keys. rewrite map_app. simpl. intros H.
  apply NoDup_remove_2 in H. rewrite in_app_iff in H. tauto.
Qed.

Lemma keys_set_fresh {V} n (v : V) d :
  ~ In n (PyDict.keys d) -> PyDict.keys (PyDict.set n v d) = PyDict.keys d ++ [n].
Proof.
  intros H. rewrite PyDictFacts.keys_set.
  destruct (PyDict.contains n d) eqn:Hc; auto.
  apply PyDictFacts.contains_true_iff in Hc. contradiction.
Qed.

(** Skipping the reload and reading the entries of a loaded mapping. *)
Lemma initialize_servers_items E s cfg items :
  _config s = YDict cfg ->
  PyDict.get "servers" cfg = Some (YDict items) ->
  initialize_servers E s =
    (for_each items (initialize_server E) ;; print InitDone)
      (append s [Print InitStart]).
Proof.
  intros Hc Hs.
  assert (Ht : truthy (_config s) = true).
  { rewrite Hc. destruct cfg; [discriminate Hs | reflexivity]. }
  rewrite initialize_servers_loaded by exact Ht.
  unfold iterate_servers, bind at 1 2 3 4, print at 1, emit, gets, lift.
  simpl. unfold append. rewrite Hc. simpl. rewrite Hs. reflexivity.
Qed.

(** ** [initialize_servers] when every step succeeds *)

Lemma initialize_loop_all_succeed E items s0 :
  PyDict.wf items -> valid_entries items ->
  constructible E items -> connectable E items ->
  _servers s0 = PyDict.empty -> _tools s0 = PyDict.empty ->
  fst (for_each items (initialize_server E) s0) = Ok tt /\
  PyDict.keys (_servers (snd (for_each items (initialize_server E) s0)))
    = PyDict.keys items /\
  PyDict.keys (_tools (snd (for_each items (initialize_server E) s0)))
    = PyDict.keys items /\
  (forall n c, In (n, c) items ->
     PyDict.get n (_servers (snd (for_each items (initialize_server E) s0)))
       = Some (entry_server n c)).
Proof.
  intros Hwf Hvalid Hcons Hconn Hs0 Ht0.
  pose (I := fun (rest : list (string * yaml)) (st : state) =>
    exists done,
      items = done ++ rest /\
      PyDict.keys (_servers st) = PyDict.keys done /\
      PyDict.keys (_tools st) = PyDict.keys done /\
      (forall n c, In (n, c) done ->
         PyDict.get n (_servers st) = Some (entry_server n c))).
  destruct (for_each_total (initialize_server E) I) with (l := items) (s := s0)
    as [Hr Hi].
  - intros [n c] rest st (done & Hd & Hks & Hkt & Hget).
    assert (Hin : In (n, c) items).
    { rewrite Hd. apply in_or_app. right. now left. }
    assert (Hfresh : ~ In n (PyDict.keys done)).
    { rewrite Hd in Hwf. now apply wf_fresh_key in Hwf. }
    destruct (initialize_server_valid E n c st (Hvalid n c Hin))
      as (command & args & Heq).
    cbv zeta in Heq. rewrite Heq, (Hcons n c _ Hin), try_add_server_run.
    match goal with
    | |- context [add_server E n ?srv ?s2] =>
        destruct (Hconn n c (trace s2 ++ [Print (Connecting n)]) Hin)
          as [Hc _];
        destruct (Hconn n c
                    (trace s2 ++ [Print (Connecting n); Connect srv (Ok tt);
                                  Print (FetchingTools n)]) Hin)
          as [_ [tools Hf]];
        rewrite (add_server_succeeds E n srv s2 tools Hc Hf)
    end.
    simpl. split; [reflexivity|].
    exists (done ++ [(n, c)]). split; [now rewrite <- app_assoc|].
    unfold PyDict.keys at 2 4. rewrite map_app. simpl.
    fold (PyDict.keys done).
    rewrite !keys_set_fresh by congruence. rewrite Hks, Hkt.
    split; [reflexivity|]. split; [reflexivity|].
    intros m c' Hm. apply in_app_or in Hm. destruct Hm as [Hm|[Hm|[]]].
    + rewrite PyDictFacts.get_set_other; auto.
      intros ->. apply Hfresh. change m with (fst (m, c')). now apply in_map.
    + inversion Hm; subst. apply PyDictFacts.get_set_same.
  - exists []. rewrite Hs0, Ht0. repeat split; auto. intros n c [].
  - destruct Hi as (done & Hd & Hks & Hkt & Hget).
    rewrite app_nil_r in Hd. subst done. auto.
Qed.

(** C5.  When the loaded configuration has a [servers] mapping of [N]
    well-shaped entries whose construction, connection and tool fetch all
    succeed, [initialize_servers] on a manager with nothing registered
    returns and leaves [N] entries in [_servers] and [N] in [_tools], under
    exactly the configured names; each name maps to the handle built from
    its entry and to a tool sequence. *)
Theorem initialize_servers_registers_all E s cfg items :
  _servers s = PyDict.empty -> _tools s = PyDict.empty ->
  _config s = YDict cfg ->
  PyDict.get "servers" cfg = Some (YDict items) ->
  PyDict.wf items -> valid_entries items ->
  constructible E items -> connectable E items ->
  fst (initialize_servers E s) = Ok tt /\
  length (_servers (snd (initialize_servers E s))) = length items /\
  length (_tools (snd (initialize_servers E s))) = length items /\
  PyDict.keys (_servers (snd (initialize_servers E s))) = PyDict.keys items /\
  PyDict.keys (_tools (snd (initialize_servers E s))) = PyDict.keys items /\
  (forall n c, In (n, c) items ->
     PyDict.get n (_servers (snd (initialize_servers E s)))
       = Some (entry_server n c) /\
     exists tools,
       PyDict.get n (_tools (snd (initialize_servers E s))) = Some tools).
Proof.
  intros Hs Ht Hc Hcfg Hwf Hvalid Hcons Hconn.
  rewrite (initialize_servers_items E s cfg items Hc Hcfg).
  destruct (initialize_loop_all_succeed E items (append s [Print InitStart])
              Hwf Hvalid Hcons Hconn Hs Ht) as (Hr & Hks & Hkt & Hget).
  unfold bind. destruct (for_each items _ _) as [r s1]. simpl in *. subst r.
  split; [reflexivity|].
  assert (Hlen : forall V (d : PyDict.t V), length d = length (PyDict.keys d)).
  { intros V d. unfold PyDict.keys. now rewrite length_map. }
  change (snd (print InitDone s1)) with (append s1 [Print InitDone]).
  unfold append. simpl.
  rewrite !Hlen, Hks, Hkt. repeat split; auto.
  destruct (PyDict.get n (_tools s1)) as [tools|] eqn:Hg; [eauto|].
  apply PyDictFacts.get_None_iff in Hg. exfalso. apply Hg. rewrite Hkt.
  change n with (fst (n, c)). now apply in_map.
Qed.

Lemma initialize_servers_registers_all_witness :
  let E := Sample.world Sample.config2 in
  let s := snd (load_config E None init) in
  fst (initialize_servers E s) = Ok tt /\
  length (_servers (snd (initialize_servers E s))) = 2 /\
  length (_tools (snd (initialize_servers E s))) = 2.
Proof.
  intros E s.
  pose (items := [("a", Sample.entry "good"); ("b", Sample.entry "good")]).
  assert (Hwf : PyDict.wf items).
  { unfold PyDict.wf. simpl. repeat constructor; simpl; intuition discriminate. }
  assert (Hvalid : valid_entries items).
  { intros n c [H|[H|[]]]; inversion H; reflexivity. }
  assert (Hcons : constructible E items).
  { intros n c tr [H|[H|[]]]; inversion H; reflexivity. }
  assert (Hconn : connectable E items).
  { intros n c tr [H|[H|[]]]; inversion H; (split; [reflexivity | eexists; reflexivity]). }
  destruct (initialize_servers_registers_all E s
              [("servers", YDict items)] items
              eq_refl eq_refl eq_refl eq_refl Hwf Hvalid Hcons Hconn)
    as (H1 & H2 & H3 & _).
  split; [exact H1 | split; [exact H2 | exact H3]].
Defined.

(** ** The handles [initialize_servers] builds *)

Lemma stable_bind_lift (R : state -> state -> Prop) `{!Rely R} {A B}
    (r : result A) (k : A -> M B) :
  (forall a, r = Ok a -> stable R (k a)) -> stable R (bind (lift r) k).
Proof.
  intros Hk s. unfold bind, lift. destruct r as [a|e]; simpl.
  - now apply Hk.
  - apply rely_refl.
Qed.

Lemma entry_params_eq c p :
  py_get c "params" (YDict []) = Ok p -> entry_params c = p.
Proof. unfold entry_params. now intros ->. Qed.

Lemma entry_flag_eq c flag :
  py_get c "cache_tools_list" (YBool true) = Ok flag -> entry_flag c = flag.
Proof. unfold entry_flag. now intros ->. Qed.


Lemma initialize_server_from_entry E items n c :
  In (n, c) items ->
  stable (extends (from_entry items)) (initialize_server E (n, c)).
Proof.
  intros Hin. unfold initialize_server.
  apply stable_bind; [exact _ | now apply extends_emit | intros _].
  do 5 (apply stable_bind_lift; [exact _ | intros ? _]).
  apply stable_bind; [exact _ | now apply extends_emit | intros _].
  apply stable_bind_lift; [exact _ | intros p Hp].
  apply stable_bind_lift; [exact _ | intros flag Hflag].
  apply entry_params_eq in Hp. apply entry_flag_eq in Hflag. subst p flag.
  apply stable_bind; [exact _ | | intros _].
  - apply extends_call. intros r. simpl. eauto.
  - unfold try_add_server, add_server.
    stable_steps;
      repeat first
        [ apply extends_set_servers | apply extends_set_tools
        | apply extends_emit; exact I
        | apply extends_call; intros ? ];
      simpl; eauto.
Qed.

Lemma iterate_servers_run E s :
  iterate_servers E s =
    match py_get (_config s) "servers" (YDict []) with
    | Ok servers =>
        match py_items servers with
        | Ok items =>
            (for_each items (initialize_server E) ;; print InitDone)
              (append s [Print InitStart])
        | Raise e => (Raise e, append s [Print InitStart])
        end
    | Raise e => (Raise e, append s [Print InitStart])
    end.
Proof.
  unfold iterate_servers, bind at 1 2 3 4, print at 1, emit, gets, lift.
  simpl. destruct (py_get _ _ _) as [servers|e]; simpl;
    [destruct (py_items servers)|]; reflexivity.
Qed.

Lemma iterate_servers_from_entry E s :
  _config (snd (iterate_servers E s)) = _config s /\
  extends (from_entry (config_items (_config s))) s
    (snd (iterate_servers E s)).
Proof.
  assert (Hloop : forall items,
            stable same_config
              (for_each items (initialize_server E) ;; print InitDone)).
  { intros items. apply stable_bind; [exact _| |intros _].
    - apply stable_for_each; [exact _|]. intros [n c] _.
      unfold initialize_server, try_add_server, add_server.
      stable_steps_with ltac:(intros ?; reflexivity).
    - intros ?; reflexivity. }
  rewrite iterate_servers_run. unfold config_items.
  destruct (py_get (_config s) "servers" (YDict [])) as [servers|e]; simpl.
  - destruct servers as [| | | | |items]; simpl;
      try (split; [reflexivity|]; exists [Print InitStart];
           split; [reflexivity | repeat constructor]).
    split.
    + now rewrite (Hloop items).
    + apply (rely_trans (R := extends (from_entry items)))
        with (s2 := append s [Print InitStart]).
      * exists [Print InitStart]. split; [reflexivity | repeat constructor].
      * apply (stable_bind (extends (from_entry items))).
        -- apply stable_for_each; [exact _|]. intros [n c] Hin.
           now apply initialize_server_from_entry.
        -- intros _. now apply extends_emit.
  - split; [reflexivity|]. exists [Print InitStart].
    split; [reflexivity | repeat constructor].
Qed.

Lemma initialize_servers_from_entry E s :
  extends (from_entry (config_items (_config (snd (initialize_servers E s)))))
    s (snd (initialize_servers E s)).
Proof.
  destruct (truthy (_config s)) eqn:Ht.
  - rewrite initialize_servers_loaded by exact Ht.
    destruct (iterate_servers_from_entry E s) as [-> H]. exact H.
  - rewrite (initialize_servers_not_loaded E s Ht). unfold bind. rewrite load_config_run.
    destruct (env_open E _ _) as [c|e]; simpl.
    + match goal with
      | |- context [iterate_servers E ?s1] =>
          destruct (iterate_servers_from_entry E s1) as [Hc H];
          rewrite Hc; simpl in *;
          apply (rely_trans (R := extends (from_entry (config_items c))))
            with (s2 := s1); [|exact H]
      end.
      eexists. split; [reflexivity | repeat constructor].
    + eexists. split; [reflexivity | repeat constructor].
Qed.


(** ** [initialize_servers] when [add_server] fails *)

Lemma append_wf s evs : state_wf s -> state_wf (append s evs).
Proof. now intros [H1 H2]. Qed.

Lemma initialize_loop_isolates E items s0 :
  PyDict.wf items -> valid_entries items -> constructible E items ->
  state_wf s0 ->
  fst (for_each items (initialize_server E) s0) = Ok tt /\
  exists new,
    trace (snd (for_each items (initialize_server E) s0)) = trace s0 ++ new /\
    forall n c, In (n, c) items ->
      In (Print (Initializing n)) new /\
      passed_to_add_server n new /\
      ((exists e,
          In (Print (InitFailed n e)) new /\
          PyDict.get n
            (_servers (snd (for_each items (initialize_server E) s0))) = None)
       \/
       (In (Print (InitOk n)) new /\
        PyDict.get n
          (_servers (snd (for_each items (initialize_server E) s0)))
          = Some (entry_server n c))).
Proof.
  intros Hwf Hvalid Hcons Hs0.
  pose (I := fun (rest : list (string * yaml)) (st : state) =>
    exists done new,
      items = done ++ rest /\
      state_wf st /\
      trace st = trace s0 ++ new /\
      forall n c, In (n, c) done ->
        In (Print (Initializing n)) new /\
        passed_to_add_server n new /\
        ((exists e, In (Print (InitFailed n e)) new /\
                    PyDict.get n (_servers st) = None) \/
         (In (Print (InitOk n)) new /\
          PyDict.get n (_servers st) = Some (entry_server n c)))).
  destruct (for_each_total (initialize_server E) I) with (l := items) (s := s0)
    as [Hr Hi].
  - intros [n c] rest st (done & new & Hd & Hst & Htr & Hdone).
    assert (Hin : In (n, c) items).
    { rewrite Hd. apply in_or_app. right. now left. }
    assert (Hfresh : ~ In n (PyDict.keys done)).
    { rewrite Hd in Hwf. now apply wf_fresh_key in Hwf. }
    destruct (initialize_server_valid E n c st (Hvalid n c Hin))
      as (command & args & Heq).
    cbv zeta in Heq. rewrite Heq, (Hcons n c _ Hin), try_add_server_run.
    clear Heq.
    match goal with
    | |- context [add_server E n ?srv ?s2] =>
        assert (Hs2 : state_wf s2) by (now apply append_wf);
        destruct (add_server_effect E n srv s2 Hs2)
          as (Hs3 & Hother & (evs & Hevs) & Hres);
        destruct (add_server E n srv s2) as [r s3]
    end.
    simpl in Hs3, Hother, Hevs, Hres.
    assert (Hold : forall m c', In (m, c') done ->
              PyDict.get m (_servers s3) = PyDict.get m (_servers st)).
    { intros m c' Hm. apply Hother. intros ->. apply Hfresh.
      change n with (fst (n, c')). now apply in_map. }
    assert (Hkeep : forall last m c', In (m, c') done ->
       In (Print (Initializing m)) (new ++ [Print (Initializing n);
            Print (CommandLine command args);
            Construct n (entry_params c) (entry_flag c) (Ok tt)]
            ++ Print (Connecting n) :: evs ++ [last]) /\
       passed_to_add_server m (new ++ [Print (Initializing n);
            Print (CommandLine command args);
            Construct n (entry_params c) (entry_flag c) (Ok tt)]
            ++ Print (Connecting n) :: evs ++ [last]) /\
       ((exists e, In (Print (InitFailed m e)) (new ++ [Print (Initializing n);
            Print (CommandLine command args);
            Construct n (entry_params c) (entry_flag c) (Ok tt)]
            ++ Print (Connecting n) :: evs ++ [last]) /\
                   PyDict.get m (_servers s3) = None) \/
        (In (Print (InitOk m)) (new ++ [Print (Initializing n);
            Print (CommandLine command args);
            Construct n (entry_params c) (entry_flag c) (Ok tt)]
            ++ Print (Connecting n) :: evs ++ [last]) /\
         PyDict.get m (_servers s3) = Some (entry_server m c')))).
    { intros last m c' Hm. rewrite (Hold m c' Hm).
      destruct (Hdone m c' Hm) as (H1 & H2 & H3).
      unfold passed_to_add_server in *.
      split; [apply in_or_app; now left|].
      split; [apply in_or_app; now left|].
      destruct H3 as [(e & H3 & H4)|(H3 & H4)]; [left; exists e|right];
        (split; [apply in_or_app; now left | exact H4]). }
    assert (Hnew : forall last,
       In (Print (Initializing n)) (new ++ [Print (Initializing n);
            Print (CommandLine command args);
            Construct n (entry_params c) (entry_flag c) (Ok tt)]
            ++ Print (Connecting n) :: evs ++ [last]) /\
       passed_to_add_server n (new ++ [Print (Initializing n);
            Print (CommandLine command args);
            Construct n (entry_params c) (entry_flag c) (Ok tt)]
            ++ Print (Connecting n) :: evs ++ [last]) /\
       In last (new ++ [Print (Initializing n);
            Print (CommandLine command args);
            Construct n (entry_params c) (entry_flag c) (Ok tt)]
            ++ Print (Connecting n) :: evs ++ [last])).
    { intros last. unfold passed_to_add_server.
      rewrite !in_app_iff. simpl. rewrite !in_app_iff. simpl. tauto. }
    assert (Htrace : forall last,
       trace s3 ++ [last] = trace s0 ++ (new ++ [Print (Initializing n);
            Print (CommandLine command args);
            Construct n (entry_params c) (entry_flag c) (Ok tt)]
            ++ Print (Connecting n) :: evs ++ [last])).
    { intros last. rewrite Hevs. simpl. rewrite Htr.
      rewrite <- !app_assoc. simpl. reflexivity. }
    destruct r as [[]|e]; simpl; (split; [reflexivity|]);
      exists (done ++ [(n, c)]); eexists;
      (split; [now rewrite <- app_assoc|]);
      (split; [now apply append_wf|]);
      (split; [apply Htrace|]);
      intros m c' Hm; apply in_app_or in Hm;
      (destruct Hm as [Hm|[Hm|[]]]; [now apply Hkeep|]);
      inversion Hm; subst m c'; clear Hm.
    + destruct (Hnew (Print (InitOk n))) as (H1 & H2 & H3).
      split; [exact H1|]. split; [exact H2|]. right. split; [exact H3|].
      destruct Hres as [Hset _]. unfold append. simpl. rewrite Hset.
      apply PyDictFacts.get_set_same.
    + destruct (Hnew (Print (InitFailed n e))) as (H1 & H2 & H3).
      split; [exact H1|]. split; [exact H2|]. left. exists e.
      split; [exact H3|]. apply Hres.
  - exists [], []. rewrite app_nil_r. repeat split; auto; try apply Hs0;
      intros; contradiction.
  - destruct Hi as (done & new & Hd & _ & Htr & Hdone).
    rewrite app_nil_r in Hd. subst done. split; [exact Hr|].
    exists new. auto.
Qed.





(** C1, as the code has it.  The [try] block of [initialize_servers] covers
    [add_server] alone.  When the connect step or the first tool fetch of an
    entry fails, the iteration still returns: the failure is printed and
    the entry's name is not in [_servers].  So, for a loaded configuration
    whose entries are well shaped and accepted by the constructor,
    [initialize_servers] returns whatever [connect] and [list_tools] do,
    every entry is taken up and passed to [add_server], and every entry
    ends either printed as failed and absent from [_servers], or printed as
    initialised and registered with the handle built from it. *)
Theorem initialize_servers_isolates_add_failures E s cfg items :
  state_wf s ->
  _config s = YDict cfg ->
  PyDict.get "servers" cfg = Some (YDict items) ->
  PyDict.wf items -> valid_entries items -> constructible E items ->
  (forall n server st e,
     state_wf st -> add_fails E n server st e ->
     try_add_server E n server st
       = (Ok tt,
          append (snd (add_server E n server st)) [Print (InitFailed n e)]) /\
     PyDict.get n (_servers (snd (try_add_server E n server st))) = None) /\
  fst (initialize_servers E s) = Ok tt /\
  exists new,
    trace (snd (initialize_servers E s)) = trace s ++ new /\
    forall n c, In (n, c) items ->
      In (Print (Initializing n)) new /\
      passed_to_add_server n new /\
      ((exists e,
          In (Print (InitFailed n e)) new /\
          PyDict.get n (_servers (snd (initialize_servers E s))) = None)
       \/
       (In (Print (InitOk n)) new /\
        PyDict.get n (_servers (snd (initialize_servers E s)))
          = Some (entry_server n c))).
Proof.
  intros Hs Hc Hcfg Hwf Hvalid Hcons. split.
  - intros n server st e [Hw _] Hfail.
    rewrite try_add_server_run.
    rewrite (proj2 (add_server_raises_iff E n server st e) Hfail). simpl.
    split; [reflexivity|].
    apply (add_server_failed_servers E n server st e Hw Hfail).
  - rewrite (initialize_servers_items E s cfg items Hc Hcfg).
    destruct (initialize_loop_isolates E items (append s [Print InitStart])
                Hwf Hvalid Hcons (append_wf s _ Hs))
      as (Hr & new & Htr & Hall).
    unfold bind. destruct (for_each items _ _) as [r s1]. simpl in *.
    subst r. split; [reflexivity|].
    change (snd (print InitDone s1)) with (append s1 [Print InitDone]).
    unfold append in *. simpl in *.
    exists (Print InitStart :: new ++ [Print InitDone]). split.
    + rewrite Htr, <- !app_assoc. reflexivity.
    + intros n c Hin. destruct (Hall n c Hin) as (H1 & H2 & H3).
      unfold passed_to_add_server in *.
      split; [right; apply in_or_app; now left|].
      split; [right; apply in_or_app; now left|].
      destruct H3 as [(e & H3 & H4)|(H3 & H4)]; [left; exists e|right];
        (split; [right; apply in_or_app; now left | exact H4]).
Qed.

Lemma initialize_servers_isolates_add_failures_witness :
  let E := Sample.world
             (YDict [("servers", YDict [("a", Sample.entry "bad");
                                        ("b", Sample.entry "good")])]) in
  let s := snd (load_config E None init) in
  fst (initialize_servers E s) = Ok tt /\
  PyDict.get "a" (_servers (snd (initialize_servers E s))) = None /\
  PyDict.get "b" (_servers (snd (initialize_servers E s)))
    = Some (entry_server "b" (Sample.entry "good")).
Proof.
  intros E s.
  pose (items := [("a", Sample.entry "bad"); ("b", Sample.entry "good")]).
  assert (Hs : state_wf s) by (split; constructor).
  assert (Hwf : PyDict.wf items).
  { unfold PyDict.wf. simpl. repeat constructor; simpl; intuition discriminate. }
  assert (Hvalid : valid_entries items).
  { intros n c [H|[H|[]]]; inversion H; reflexivity. }
  assert (Hcons : constructible E items).
  { intros n c tr [H|[H|[]]]; inversion H; reflexivity. }
  destruct (initialize_servers_isolates_add_failures E s
              [("servers", YDict items)] items
              Hs eq_refl eq_refl Hwf Hvalid Hcons) as (_ & Hr & _).
  split; [exact Hr|]. split; reflexivity.
Defined.

(** C1 as the specification words it fails: what goes wrong before
    [add_server] is called is not caught.  An entry without [params], or
    one the constructor rejects, makes [initialize_servers] raise, and the
    entry after it is never taken up although it would have connected. *)
Lemma failure_before_add_server_aborts :
  (let E := Sample.world Sample.config_no_params in
   let s := snd (load_config E None init) in
   fst (initialize_servers E s) = Raise (KeyError "params") /\
   ~ In (Print (Initializing "b")) (trace (snd (initialize_servers E s))) /\
   PyDict.get "b" (_servers (snd (initialize_servers E s))) = None) /\
  (let E := Sample.world Sample.config_bad_command in
   let s := snd (load_config E None init) in
   fst (initialize_servers E s) = Raise (External "validation") /\
   ~ In (Print (Initializing "b")) (trace (snd (initialize_servers E s))) /\
   PyDict.get "b" (_servers (snd (initialize_servers E s))) = None).
Proof.
  split; simpl; (split; [reflexivity|]); (split; [|reflexivity]);
    vm_compute; intros H;
    repeat (destruct H as [H|H]; [discriminate H|]); exact H.
Qed.

(** * More of the manager *)

(** ** [load_config] *)

(** A failing load raises and leaves the stored configuration as it was; a
    successful one replaces it, loaded before or not.  Neither touches
    [_servers] or [_tools], and the file read is the one asked for, the
    default one when no path is given. *)
Theorem load_config_keeps_config_on_failure E config_path s :
  let path := match config_path with
              | None => default_config_path E
              | Some p => p
              end in
  same_dicts s (snd (load_config E config_path s)) /\
  (exists r, trace (snd (load_config E config_path s))
             = trace s ++ Print (LoadingConfig path) :: Open path r
                 :: match r with Ok _ => [Print ConfigLoaded] | Raise _ => [] end
             /\ r = env_open E (trace s ++ [Print (LoadingConfig path)]) path) /\
  (forall e,
     env_open E (trace s ++ [Print (LoadingConfig path)]) path = Raise e ->
     fst (load_config E config_path s) = Raise e /\
     _config (snd (load_config E config_path s)) = _config s) /\
  (forall c,
     env_open E (trace s ++ [Print (LoadingConfig path)]) path = Ok c ->
     fst (load_config E config_path s) = Ok tt /\
     _config (snd (load_config E config_path s)) = c).
Proof.
  intros path. pose proof (load_config_run E config_path s) as Hrun.
  cbv zeta in Hrun. fold path in Hrun. rewrite Hrun.
  destruct (env_open E _ path) as [c|e]; simpl.
  - split; [split; reflexivity|].
    split; [exists (Ok c); split; reflexivity|].
    split; [discriminate|]. intros c' H. inversion H; subst. auto.
  - split; [split; reflexivity|].
    split; [exists (Raise e); split; reflexivity|].
    split; [|discriminate]. intros e' H. inversion H; subst. auto.
Qed.

Lemma load_config_keeps_config_on_failure_witness :
  let E := Sample.world Sample.config2 in
  let s := snd (load_config E None init) in
  _config s = Sample.config2 /\
  fst (load_config (without_files E) (Some "other.yaml") s)
    = Raise (External "FileNotFoundError") /\
  _config (snd (load_config (without_files E) (Some "other.yaml") s))
    = Sample.config2.
Proof.
  intros E s.
  destruct (load_config_keeps_config_on_failure E None init)
    as (_ & _ & _ & Hok).
  destruct (load_config_keeps_config_on_failure (without_files E)
              (Some "other.yaml") s) as (_ & _ & Hfail & _).
  split; [exact (proj2 (Hok Sample.config2 eq_refl))|].
  destruct (Hfail (External "FileNotFoundError") eq_refl) as [H1 H2].
  split; [exact H1 | rewrite H2; exact (proj2 (Hok Sample.config2 eq_refl))].
Defined.

(** ** [add_server]: what it stores and what it leaves alone *)

Lemma get_In_entry {V} k (v : V) d : PyDict.get k d = Some v -> In (k, v) d.
Proof.
  induction d as [|[k0 v0] d IH]; simpl; [discriminate|].
  destruct (String.eqb_spec k k0) as [->|Hk]; intros H.
  - left. congruence.
  - right. auto.
Qed.

(** When the connection and the first fetch succeed, [add_server] returns,
    and looking the name up gives back exactly the handle passed in and the
    tool sequence [list_tools] answered. *)
Theorem add_server_then_lookup E name server s tools :
  connect_answer E name server s = Ok tt ->
  fetch_answer E name server s = Ok tools ->
  fst (add_server E name server s) = Ok tt /\
  fst (get_server name (snd (add_server E name server s))) = Ok (Some server) /\
  fst (get_server_tools name (snd (add_server E name server s)))
    = Ok (Some tools).
Proof.
  intros Hc Hf. rewrite (add_server_succeeds E name server s tools Hc Hf).
  unfold get_server, get_server_tools, bind, gets, ret. simpl.
  now rewrite !PyDictFacts.get_set_same.
Qed.

Lemma add_server_then_lookup_witness :
  let E := Sample.world Sample.config2 in
  fst (get_server "x" (snd (add_server E "x" (Sample.server "x" "good") init)))
    = Ok (Some (Sample.server "x" "good")) /\
  fst (get_server_tools "x"
         (snd (add_server E "x" (Sample.server "x" "good") init)))
    = Ok (Some (Sample.tools_of (Sample.server "x" "good"))).
Proof.
  intros E.
  destruct (add_server_then_lookup E "x" (Sample.server "x" "good") init
              (Sample.tools_of (Sample.server "x" "good")) eq_refl eq_refl)
    as (_ & H1 & H2).
  split; [exact H1 | exact H2].
Defined.

#[export] Instance same_entry_rely (m : string) : Rely (same_entry m).
Proof.
  split; unfold same_entry.
  - auto.
  - intros s1 s2 s3 [H1 H2] [H3 H4]. split; congruence.
Qed.

Lemma same_entry_add_server E m name server :
  m <> name -> stable (same_entry m) (add_server E name server).
Proof.
  intros Hne s. unfold same_entry.
  destruct (add_server_cases E name server s); simpl.
  - split; auto. destruct (PyDict.contains name (_servers s)); auto.
    apply PyDictFacts.get_del_other. congruence.
  - split; auto.
    rewrite PyDictFacts.get_del_other, PyDictFacts.get_set_other; congruence.
  - rewrite !PyDictFacts.get_set_other by congruence. auto.
Qed.

(** Whether it succeeds or fails, [add_server name] changes nothing under
    any other name: handle and cached tools of every [m <> name] are what
    they were. *)
Theorem add_server_leaves_other_names E name server s m :
  m <> name ->
  fst (get_server m (snd (add_server E name server s)))
    = fst (get_server m s) /\
  fst (get_server_tools m (snd (add_server E name server s)))
    = fst (get_server_tools m s).
Proof.
  intros Hne. destruct (same_entry_add_server E m name server Hne s) as [H1 H2].
  unfold get_server, get_server_tools, bind, gets, ret. simpl.
  now rewrite H1, H2.
Qed.

Lemma add_server_leaves_other_names_witness :
  let E := Sample.world Sample.config2 in
  let s := run E [OpInitializeServers] in
  fst (get_server "a" (snd (add_server E "b" (Sample.server "b" "bad") s)))
    = fst (get_server "a" s).
Proof.
  intros E s.
  assert (Hne : "a" <> "b") by discriminate.
  exact (proj1 (add_server_leaves_other_names E "b" (Sample.server "b" "bad")
                  s "a" Hne)).
Defined.

(** A successful [add_server] puts a new name last in the iteration order
    of both dictionaries; a name that is already there keeps its place, its
    handle being replaced without any cleanup, terminate or kill. *)
Theorem add_server_iteration_order E name server s tools :
  connect_answer E name server s = Ok tt ->
  fetch_answer E name server s = Ok tools ->
  PyDict.keys (_servers (snd (add_server E name server s)))
    = (if PyDict.contains name (_servers s)
       then PyDict.keys (_servers s)
       else PyDict.keys (_servers s) ++ [name]) /\
  PyDict.keys (_tools (snd (add_server E name server s)))
    = (if PyDict.contains name (_tools s)
       then PyDict.keys (_tools s)
       else PyDict.keys (_tools s) ++ [name]) /\
  extends no_shutdown s (snd (add_server E name server s)).
Proof.
  intros Hc Hf. split; [|split].
  - rewrite (add_server_succeeds E name server s tools Hc Hf). simpl.
    apply PyDictFacts.keys_set.
  - rewrite (add_server_succeeds E name server s tools Hc Hf). simpl.
    apply PyDictFacts.keys_set.
  - apply add_server_no_shutdown.
Qed.

Lemma add_server_iteration_order_witness :
  let E := Sample.world Sample.config2 in
  let s := run E [OpInitializeServers] in
  PyDict.keys (_servers (snd (add_server E "a" (Sample.server "a" "good") s)))
    = ["a"; "b"] /\
  PyDict.keys (_servers (snd (add_server E "c" (Sample.server "c" "good") s)))
    = ["a"; "b"; "c"].
Proof.
  intros E s.
  destruct (add_server_iteration_order E "a" (Sample.server "a" "good") s
              (Sample.tools_of (Sample.server "a" "good")) eq_refl eq_refl)
    as (Ha & _).
  destruct (add_server_iteration_order E "c" (Sample.server "c" "good") s
              (Sample.tools_of (Sample.server "c" "good")) eq_refl eq_refl)
    as (Hc & _).
  split; [rewrite Ha | rewrite Hc]; reflexivity.
Defined.

(** ** Every registered handle is a connected one *)

Lemma in_del {V} k (x : string * V) d : In x (PyDict.del k d) -> In x d.
Proof.
  induction d as [|[k0 v0] d IH]; simpl; auto.
  destruct (String.eqb k k0); simpl; intuition.
Qed.

Lemma in_set {V} k (v : V) x d :
  In x (PyDict.set k v d) -> x = (k, v) \/ In x d.
Proof.
  induction d as [|[k0 v0] d IH]; simpl.
  - intuition.
  - destruct (String.eqb k k0); simpl; intuition.
Qed.

Lemma in_del_set {V} k (v : V) x d :
  In x (PyDict.del k (PyDict.set k v d)) -> In x d.
Proof.
  induction d as [|[k0 v0] d IH]; simpl.
  - rewrite String.eqb_refl. auto.
  - destruct (String.eqb k k0) eqn:Hk; simpl.
    + rewrite String.eqb_refl. auto.
    + rewrite Hk. simpl. intuition.
Qed.

Lemma connected_kept s s' :
  connected_and_listed s ->
  (forall x, In x (_servers s') -> In x (_servers s)) ->
  (exists new, trace s' = trace s ++ new) ->
  connected_and_listed s'.
Proof.
  intros Hc Hsub [new Htr] n h Hin. rewrite Htr.
  destruct (Hc n h (Hsub _ Hin)) as [H1 [tools H2]].
  split; [apply in_or_app; now left|].
  exists tools. apply in_or_app. now left.
Qed.

Lemma keeps_connected_emit ev : stable (keeps connected_and_listed) (emit ev).
Proof.
  intros s Hc. apply (connected_kept s); auto. now exists [ev].
Qed.

Lemma keeps_connected_call {A} (ask : list event -> result A) record :
  stable (keeps connected_and_listed) (call ask record).
Proof.
  intros s Hc. apply (connected_kept s); auto. eexists. reflexivity.
Qed.

Lemma keeps_connected_set_config c :
  stable (keeps connected_and_listed) (set_config c).
Proof.
  intros s Hc. apply (connected_kept s); auto. exists []. simpl.
  now rewrite app_nil_r.
Qed.

Lemma keeps_connected_set_tools d :
  stable (keeps connected_and_listed) (set_tools d).
Proof.
  intros s Hc. apply (connected_kept s); auto. exists []. simpl.
  now rewrite app_nil_r.
Qed.

Lemma keeps_connected_delete name :
  stable (keeps connected_and_listed)
    (d <- gets _servers ;;
     if PyDict.contains name d
     then set_servers (PyDict.del name d)
     else ret tt).
Proof.
  intros s Hc. unfold bind, gets, set_servers, ret. simpl.
  destruct (PyDict.contains name (_servers s)); simpl; auto.
  apply (connected_kept s); simpl; auto.
  - intros x. apply in_del.
  - exists []. now rewrite app_nil_r.
Qed.

Lemma keeps_connected_add_server E name server :
  stable (keeps connected_and_listed) (add_server E name server).
Proof.
  intros s Hc.
  destruct (add_server_cases E name server s) as [e Hcn|e Hcn Hf|tools Hcn Hf].
  - apply (connected_kept s); simpl; auto; [|eexists; reflexivity].
    intros x. destruct (PyDict.contains name (_servers s)); auto.
    apply in_del.
  - apply (connected_kept s); simpl; auto; [|eexists; reflexivity].
    intros x. apply in_del_set.
  - intros n h Hin. simpl in *. apply in_set in Hin.
    destruct Hin as [Hin|Hin].
    + inversion Hin; subst. split.
      * apply in_or_app. right. simpl. auto.
      * exists tools. apply in_or_app. right. simpl. auto.
    + destruct (Hc n h Hin) as [H1 [tl H2]].
      split; [apply in_or_app; now left|].
      exists tl. apply in_or_app. now left.
Qed.

Ltac connected_leaf :=
  first
    [ progress unfold try_add_server
    | apply keeps_connected_add_server
    | apply keeps_connected_delete
    | apply keeps_connected_set_config
    | apply keeps_connected_set_tools
    | apply keeps_connected_emit
    | apply keeps_connected_call ].

Lemma exec_connected E s o :
  connected_and_listed s -> connected_and_listed (exec E s o).
Proof.
  destruct o; simpl; auto; intros Hc;
    match goal with
    | |- connected_and_listed (snd (?m s)) =>
        assert (Hm : stable (keeps connected_and_listed) m);
        [|exact (Hm s Hc)]
    end.
  - unfold load_config. stable_steps_with connected_leaf.
  - unfold initialize_servers, iterate_servers, load_config.
    stable_steps_with
      ltac:(first [ connected_leaf
                  | apply stable_for_each;
                    [exact _ | intros [? ?] _; unfold initialize_server] ]).
  - apply keeps_connected_add_server.
  - unfold get_all_tools. stable_steps_with connected_leaf.
  - unfold refresh_tools.
    stable_steps_with
      ltac:(first [ connected_leaf
                  | apply stable_for_each;
                    [exact _ | intros [? ?] _; unfold refresh_server] ]).
  - unfold close.
    stable_steps_with
      ltac:(first [ connected_leaf
                  | apply stable_for_each;
                    [exact _ | intros [? ?] _;
                               unfold close_server, terminate_process] ]).
Qed.

(** In every state reached through the public operations, a handle found in
    [_servers] is one whose [connect] and whose [list_tools] have succeeded:
    the manager never registers a handle it did not connect. *)
Theorem registered_handles_are_connected E ops name server :
  PyDict.get name (_servers (run E ops)) = Some server ->
  In (Connect server (Ok tt)) (trace (run E ops)) /\
  exists tools, In (ListTools server (Ok tools)) (trace (run E ops)).
Proof.
  intros Hget. apply get_In_entry in Hget. revert name server Hget.
  change (connected_and_listed (run E ops)). unfold run.
  assert (H : forall s0, connected_and_listed s0 ->
                         connected_and_listed (fold_left (exec E) ops s0)).
  { induction ops as [|o ops IH]; simpl; auto.
    intros s0 H0. apply IH. now apply exec_connected. }
  apply H. intros n h [].
Qed.

Lemma registered_handles_are_connected_witness :
  let E := Sample.flaky Sample.config2 in
  let ops := [OpInitializeServers; OpRefreshTools] in
  In (Connect (entry_server "a" (Sample.entry "good")) (Ok tt))
     (trace (run E ops)).
Proof.
  intros E ops.
  exact (proj1 (registered_handles_are_connected E ops "a"
                  (entry_server "a" (Sample.entry "good")) eq_refl)).
Defined.

(** ** [close]: one clean-up per handle *)



Section After.
Context (R R0 : state -> state -> Prop) `{!Rely R0}.
Hypothesis after : forall a b c, R a b -> R0 b c -> R a c.




End After.



(** ** [close] when every clean-up succeeds *)

Lemma close_server_graceful E name server rest s :
  graceful E ->
  _servers s = (name, server) :: rest ->
  close_server E (name, server) s =
    (Ok tt,
     {| _servers := rest; _tools := _tools s; _config := _config s;
        trace := trace s ++ [Print (Closing name); Cleanup server (Ok tt);
                             Print (Closed name)] |}).
Proof.
  intros Hg Hs.
  unfold close_server, try_finally, try_except, bind, print, emit, call,
    gets, set_servers, ret. simpl. rewrite Hg. simpl. rewrite Hs.
  unfold PyDict.contains. simpl. rewrite String.eqb_refl. simpl.
  now rewrite <- !app_assoc.
Qed.

(** When no [cleanup] fails, [close] does nothing to the outside but one
    [cleanup] per registered handle, in order, each between its two lines of
    output: no process is looked at, terminated, polled or killed, and
    there is no waiting. *)
Theorem close_graceful_trace E s :
  graceful E ->
  close E s =
    (Ok tt,
     {| _servers := []; _tools := []; _config := _config s;
        trace :=
          trace s ++ [Print CloseStart]
            ++ flat_map (fun item : string * MCPServerStdio =>
                           [Print (Closing (fst item));
                            Cleanup (snd item) (Ok tt);
                            Print (Closed (fst item))]) (_servers s)
            ++ [Print CloseDone] |}).
Proof.
  intros Hg. destruct (close_run E s) as (s1 & Hrun & Hs1 & ->).
  set (f := fun item : string * MCPServerStdio =>
              [Print (Closing (fst item)); Cleanup (snd item) (Ok tt);
               Print (Closed (fst item))]).
  destruct (for_each_total (close_server E)
              (fun rest st =>
                 _servers st = rest /\ _config st = _config s /\
                 trace st ++ flat_map f rest
                 = (trace s ++ [Print CloseStart]) ++ flat_map f (_servers s)))
    with (l := _servers s) (s := append s [Print CloseStart]) as [_ Hd].
  - intros [name server] rest st (Hst & Hcf & Htr).
    rewrite (close_server_graceful E name server rest st Hg Hst). simpl.
    split; [reflexivity|]. split; [reflexivity|]. split; [exact Hcf|].
    rewrite <- Htr, <- app_assoc. reflexivity.
  - repeat split; reflexivity.
  - rewrite Hrun in Hd. simpl in Hd. destruct Hd as (_ & Hcf & Htr).
    rewrite app_nil_r in Htr. rewrite Hs1, Hcf, Htr, <- !app_assoc.
    reflexivity.
Qed.

Lemma close_graceful_trace_witness :
  let E := Sample.world Sample.config2 in
  let s := run E [OpInitializeServers] in
  skipn (length (trace s)) (trace (snd (close E s)))
  = [Print CloseStart;
     Print (Closing "a");
     Cleanup (entry_server "a" (Sample.entry "good")) (Ok tt);
     Print (Closed "a");
     Print (Closing "b");
     Cleanup (entry_server "b" (Sample.entry "good")) (Ok tt);
     Print (Closed "b");
     Print CloseDone].
Proof.
  intros E s.
  assert (Hg : graceful E) by (intros tr h; reflexivity).
  pose proof (close_graceful_trace E s Hg) as Hrun.
  rewrite Hrun. vm_compute. reflexivity.
Defined.

(** ** After [close] *)

Lemma close_total_and_empties_aux E s :
  _servers (snd (close E s)) = [] /\ _tools (snd (close E s)) = [].
Proof. destruct (close_run E s) as (s1 & _ & Hd & ->). simpl. auto. Qed.

(** Once [close] has returned, every name is unknown to [get_server] and to
    [get_server_tools]; a [refresh_tools] or a second [close] returns
    without calling any collaborator, and [get_all_tools] passes an empty
    list of handles. *)
Theorem nothing_registered_after_close E s :
  let s1 := snd (close E s) in
  (forall n, fst (get_server n s1) = Ok None /\
             fst (get_server_tools n s1) = Ok None) /\
  (fst (refresh_tools E s1) = Ok tt /\
   trace (snd (refresh_tools E s1)) = trace s1 ++ [Print RefreshStart]) /\
  (fst (close E s1) = Ok tt /\
   trace (snd (close E s1)) = trace s1 ++ [Print CloseStart; Print CloseDone]) /\
  (exists r, trace (snd (get_all_tools E s1))
             = trace s1 ++ Print AllToolsStart :: AllFunctionTools [] r
                 :: match r with
                    | Ok tools => [Print (AllToolsDone (length tools))]
                    | Raise _ => []
                    end).
Proof.
  intros s1. destruct (close_total_and_empties_aux E s) as (Hs & Ht).
  fold s1 in Hs, Ht. split; [|split; [|split]].
  - intros n. unfold get_server, get_server_tools, bind, gets, ret. simpl.
    now rewrite Hs, Ht.
  - unfold refresh_tools, bind, print, emit, gets. simpl. rewrite Hs.
    simpl. auto.
  - unfold close, bind, print, emit, gets, set_tools. simpl. rewrite Hs.
    simpl. split; [reflexivity|]. now rewrite <- app_assoc.
  - unfold get_all_tools, bind, print, emit, gets, call, ret. simpl.
    rewrite Hs. simpl.
    destruct (env_all_function_tools E _ []) as [tools|e] eqn:Hr.
    + exists (Ok tools). simpl. now rewrite <- !app_assoc.
    + exists (Raise e). simpl. now rewrite <- !app_assoc.
Qed.

(** ** [initialize_servers] and the shape of the configuration *)

(** A stored configuration that is truthy but not a mapping (a list, a
    string, a number), or whose [servers] is not a mapping (a null, a
    list), makes [initialize_servers] raise [AttributeError] right after
    its first line of output: nothing is registered and no collaborator is
    called. *)
Theorem initialize_servers_rejects_malformed_config E s :
  truthy (_config s) = true ->
  ((forall cfg, _config s <> YDict cfg) ->
   initialize_servers E s
     = (Raise (AttributeError "get"), append s [Print InitStart])) /\
  (forall cfg servers,
     _config s = YDict cfg ->
     PyDict.get "servers" cfg = Some servers ->
     (forall items, servers <> YDict items) ->
     initialize_servers E s
       = (Raise (AttributeError "items"), append s [Print InitStart])).
Proof.
  intros Ht. rewrite (initialize_servers_loaded E s Ht), iterate_servers_run.
  split.
  - intros Hno. destruct (_config s) as [| | | | |cfg]; try reflexivity.
    now destruct (Hno cfg).
  - intros cfg servers Hc Hs Hno. rewrite Hc. simpl. rewrite Hs.
    destruct servers as [| | | | |items]; try reflexivity.
    now destruct (Hno items).
Qed.

Lemma initialize_servers_rejects_malformed_config_witness :
  let E := Sample.world (YDict [("servers", YNone)]) in
  let s := snd (load_config E None init) in
  fst (initialize_servers E s) = Raise (AttributeError "items") /\
  _servers (snd (initialize_servers E s)) = [].
Proof.
  intros E s.
  destruct (initialize_servers_rejects_malformed_config E s eq_refl)
    as [_ H].
  rewrite (H [("servers", YNone)] YNone eq_refl eq_refl)
    by (intros items; discriminate).
  split; reflexivity.
Defined.

(** With nothing loaded, or an empty document loaded, [initialize_servers]
    reads the default file; when that file is itself empty or holds
    anything but a mapping, the call raises [AttributeError] and registers
    nothing. *)
Theorem initialize_servers_rejects_empty_file E s c :
  truthy (_config s) = false ->
  env_open E (trace s ++ [Print (LoadingConfig (default_config_path E))])
    (default_config_path E) = Ok c ->
  (forall cfg, c <> YDict cfg) ->
  fst (initialize_servers E s) = Raise (AttributeError "get") /\
  same_dicts s (snd (initialize_servers E s)) /\
  _config (snd (initialize_servers E s)) = c.
Proof.
  intros Ht Ho Hno. rewrite (initialize_servers_not_loaded E s Ht).
  unfold bind. rewrite load_config_run. simpl. rewrite Ho.
  rewrite iterate_servers_run. simpl.
  destruct c as [| | | | |cfg]; try (repeat split; reflexivity).
  now destruct (Hno cfg).
Qed.

Lemma initialize_servers_rejects_empty_file_witness :
  let E := Sample.world YNone in
  fst (initialize_servers E init) = Raise (AttributeError "get").
Proof.
  intros E.
  assert (Hno : forall cfg, YNone <> YDict cfg) by (intros cfg; discriminate).
  exact (proj1 (initialize_servers_rejects_empty_file E init YNone
                  eq_refl eq_refl Hno)).
Defined.

(** A loaded mapping without a [servers] key, or with an empty one, is no
    error: [initialize_servers] returns after its first and last lines of
    output, registers nothing and calls no collaborator. *)
Theorem initialize_servers_without_entries E s cfg :
  _config s = YDict cfg ->
  cfg <> [] ->
  PyDict.get "servers" cfg = None \/
  PyDict.get "servers" cfg = Some (YDict []) ->
  initialize_servers E s
    = (Ok tt, append s [Print InitStart; Print InitDone]).
Proof.
  intros Hc Hne Hs.
  assert (Ht : truthy (_config s) = true).
  { rewrite Hc. now destruct cfg. }
  rewrite (initialize_servers_loaded E s Ht), iterate_servers_run, Hc.
  simpl. destruct Hs as [-> | ->]; simpl;
    unfold bind, print, emit, append; simpl;
    now rewrite <- app_assoc.
Qed.

Lemma initialize_servers_without_entries_witness :
  let E := Sample.world (YDict [("version", YInt 1)]) in
  let s := snd (load_config E None init) in
  initialize_servers E s
    = (Ok tt, append s [Print InitStart; Print InitDone]).
Proof.
  intros E s.
  assert (Hne : [("version", YInt 1)] <> []) by discriminate.
  exact (initialize_servers_without_entries E s [("version", YInt 1)]
           eq_refl Hne (or_introl eq_refl)).
Defined.

(** ** What only [close] does *)

Lemma initialize_servers_no_shutdown E :
  stable (extends no_shutdown) (initialize_servers E).
Proof.
  unfold initialize_servers, iterate_servers, load_config.
  stable_steps_with
    ltac:(first [ apply add_server_no_shutdown
                | apply extends_set_config
                | apply extends_emit; exact I
                | apply extends_call; intros ?; exact I
                | apply stable_for_each;
                  [exact _ | intros [? ?] _;
                             unfold initialize_server, try_add_server] ]).
Qed.

Lemma op_eq_close (o : op) : o = OpClose \/ o <> OpClose.
Proof. destruct o; auto; right; discriminate. Qed.

Lemma only_close_shuts_down_aux E s o :
  o <> OpClose -> extends no_shutdown s (exec E s o).
Proof.
  intros Ho. destruct o; simpl; try (now destruct Ho);
    try apply rely_refl;
    match goal with
    | |- extends no_shutdown s (snd (?m s)) =>
        assert (Hm : stable (extends no_shutdown) m); [|exact (Hm s)]
    end.
  - unfold load_config. extends_steps.
  - apply initialize_servers_no_shutdown.
  - apply add_server_no_shutdown.
  - unfold get_all_tools. extends_steps.
  - unfold refresh_tools.
    stable_steps_with
      ltac:(first [ apply extends_set_tools
                  | apply extends_emit; exact I
                  | apply extends_call; intros ?; exact I
                  | apply stable_for_each;
                    [exact _ | intros [? ?] _; unfold refresh_server] ]).
Qed.

(** No operation but [close] ever cleans up, terminates or kills a server:
    loading, initialising, adding, looking up, listing and refreshing only
    add other events to the trace, also when they replace or drop a
    handle. *)
Theorem only_close_shuts_down E s o :
  o <> OpClose -> extends no_shutdown s (exec E s o).
Proof. apply only_close_shuts_down_aux. Qed.

Lemma only_close_shuts_down_witness :
  let E := Sample.flaky Sample.config2 in
  let s := run E [OpInitializeServers] in
  extends no_shutdown s (exec E s (OpAddServer "a" (Sample.server "a" "bad"))).
Proof.
  intros E s.
  assert (Ho : OpAddServer "a" (Sample.server "a" "bad") <> OpClose)
    by discriminate.
  exact (only_close_shuts_down E s _ Ho).
Defined.

(** With a truthy configuration stored, [initialize_servers] does not read
    any file. *)
Theorem initialize_servers_loaded_reads_no_file E s :
  truthy (_config s) = true ->
  extends no_open s (snd (initialize_servers E s)) /\
  _config (snd (initialize_servers E s)) = _config s.
Proof.
  intros Ht. rewrite (initialize_servers_loaded E s Ht). split.
  - revert s Ht. intros s _. revert s.
    change (stable (extends no_open) (iterate_servers E)).
    unfold iterate_servers.
    stable_steps_with
      ltac:(first [ apply extends_set_servers | apply extends_set_tools
                  | apply extends_emit; exact I
                  | apply extends_call; intros ?; exact I
                  | apply stable_for_each;
                    [exact _ | intros [? ?] _;
                               unfold initialize_server, try_add_server,
                                 add_server] ]).
  - apply iterate_servers_from_entry.
Qed.

Lemma initialize_servers_loaded_reads_no_file_witness :
  let E := Sample.world Sample.config2 in
  let s := snd (load_config E (Some "servers.yaml") init) in
  _config (snd (initialize_servers (without_files E) s)) = Sample.config2 /\
  fst (initialize_servers (without_files E) s) = Ok tt.
Proof.
  intros E s.
  destruct (initialize_servers_loaded_reads_no_file (without_files E) s
              eq_refl) as [_ Hc].
  split; [rewrite Hc|]; reflexivity.
Defined.

(** ** Names that are not configured *)

Lemma same_entry_emit m ev : stable (same_entry m) (emit ev).
Proof. intros s. split; reflexivity. Qed.

Lemma same_entry_call m {A} (ask : list event -> result A) record :
  stable (same_entry m) (call ask record).
Proof. intros s. split; reflexivity. Qed.

Lemma same_entry_initialize_server E m n c :
  m <> n -> stable (same_entry m) (initialize_server E (n, c)).
Proof.
  intros Hne. unfold initialize_server, try_add_server.
  stable_steps_with
    ltac:(first [ apply same_entry_add_server; exact Hne
                | apply same_entry_emit
                | apply same_entry_call ]).
Qed.

Lemma same_entry_iterate_servers E m s :
  ~ In m (PyDict.keys (config_items (_config s))) ->
  same_entry m s (snd (iterate_servers E s)).
Proof.
  intros Hm. rewrite iterate_servers_run. unfold config_items in Hm.
  destruct (py_get (_config s) "servers" (YDict [])) as [servers|e];
    [|split; reflexivity].
  destruct servers as [| | | | |items]; try (split; reflexivity).
  simpl. apply (rely_trans (R := same_entry m))
           with (s2 := append s [Print InitStart]); [split; reflexivity|].
  apply (stable_bind (same_entry m)).
  - apply stable_for_each; [exact _|]. intros [n c] Hin.
    apply same_entry_initialize_server. intros ->. apply Hm.
    change n with (fst (n, c)). now apply in_map.
  - intros _. apply same_entry_emit.
Qed.

(** [initialize_servers] leaves every name that is not a key of the
    configured [servers] mapping as it finds it: its handle, if any, stays
    registered and its cached tools stay cached, whatever happens to the
    configured entries. *)
Theorem initialize_servers_leaves_unconfigured_names E s m :
  ~ In m (PyDict.keys
            (config_items (_config (snd (initialize_servers E s))))) ->
  fst (get_server m (snd (initialize_servers E s))) = fst (get_server m s) /\
  fst (get_server_tools m (snd (initialize_servers E s)))
    = fst (get_server_tools m s).
Proof.
  intros Hm.
  assert (H : same_entry m s (snd (initialize_servers E s))).
  { destruct (truthy (_config s)) eqn:Ht.
    - rewrite (initialize_servers_loaded E s Ht) in *.
      apply same_entry_iterate_servers.
      now rewrite (proj1 (iterate_servers_from_entry E s)) in Hm.
    - rewrite (initialize_servers_not_loaded E s Ht) in *.
      unfold bind in *. rewrite load_config_run in *.
      destruct (env_open E _ _) as [c|e]; [|split; reflexivity].
      match goal with
      | |- same_entry m s (snd (iterate_servers E ?s1)) =>
          apply (rely_trans (R := same_entry m)) with (s2 := s1);
          [split; reflexivity|];
          apply same_entry_iterate_servers;
          now rewrite (proj1 (iterate_servers_from_entry E s1)) in Hm
      end. }
  destruct H as [H1 H2].
  unfold get_server, get_server_tools, bind, gets, ret. simpl.
  now rewrite H1, H2.
Qed.

Lemma initialize_servers_leaves_unconfigured_names_witness :
  let E := Sample.world Sample.config2 in
  let s := snd (add_server E "x" (Sample.server "x" "good") init) in
  fst (get_server "x" (snd (initialize_servers E s)))
    = Ok (Some (Sample.server "x" "good")).
Proof.
  intros E s.
  assert (Hm : ~ In "x" (PyDict.keys
            (config_items (_config (snd (initialize_servers E s)))))).
  { vm_compute. intros H.
    repeat (destruct H as [H|H]; [discriminate H|]). exact H. }
  rewrite (proj1 (initialize_servers_leaves_unconfigured_names E s "x" Hm)).
  reflexivity.
Defined.

(** ** [refresh_tools] and the keys of the cache *)

#[export] Instance same_cache_rely (m : string) : Rely (same_cache m).
Proof. split; unfold same_cache; congruence. Qed.

Lemma same_cache_refresh_server E m name server :
  m <> name -> stable (same_cache m) (refresh_server E (name, server)).
Proof.
  intros Hne s. unfold same_cache. rewrite refresh_server_run.
  destruct (env_list_tools E _ server); simpl; auto.
  apply PyDictFacts.get_set_other. congruence.
Qed.

(** [refresh_tools] writes only under registered names.  A cache entry
    whose name is not in [_servers] (left behind by a failed re-add) is
    neither refreshed nor dropped; and in a state reached through the
    public operations the cache has the same keys, in the same order,
    after the call as before. *)
Theorem refresh_tools_keeps_cache_keys E s :
  reachable E s ->
  PyDict.keys (_tools (snd (refresh_tools E s))) = PyDict.keys (_tools s) /\
  (forall m, PyDict.contains m (_servers s) = false ->
     fst (get_server_tools m (snd (refresh_tools E s)))
       = fst (get_server_tools m s)).
Proof.
  intros Hr. apply (reachable_consistent E) in Hr.
  destruct Hr as (_ & Hcov & _).
  assert (Hrun : refresh_tools E s
                 = for_each (_servers s) (refresh_server E)
                     (append s [Print RefreshStart])) by reflexivity.
  rewrite Hrun. split.
  - apply (for_each_preserves (refresh_server E)
             (fun st => PyDict.keys (_tools st) = PyDict.keys (_tools s)));
      [|reflexivity].
    intros [name server] st Hin Hst. rewrite refresh_server_run.
    destruct (env_list_tools E _ server); simpl; auto.
    rewrite PyDictFacts.keys_set.
    assert (Hc : PyDict.contains name (_tools st) = true).
    { apply PyDictFacts.contains_true_iff. rewrite Hst.
      apply PyDictFacts.contains_true_iff, Hcov.
      apply PyDictFacts.contains_true_iff.
      change name with (fst (name, server)). now apply in_map. }
    now rewrite Hc.
  - intros m Hm.
    assert (H : same_cache m (append s [Print RefreshStart])
                  (snd (for_each (_servers s) (refresh_server E)
                          (append s [Print RefreshStart])))).
    { apply (stable_for_each (same_cache m)). intros [name server] Hin.
      apply same_cache_refresh_server. intros ->.
      assert (Hc : PyDict.contains name (_servers s) = true).
      { apply PyDictFacts.contains_true_iff.
        change name with (fst (name, server)). now apply in_map. }
      congruence. }
    unfold same_cache in H. simpl in H.
    unfold get_server_tools, bind, gets, ret. simpl. now rewrite H.
Qed.

Lemma refresh_tools_keeps_cache_keys_witness :
  let E := Sample.world Sample.config2 in
  let s := run E [OpAddServer "x" (Sample.server "x" "good");
                  OpAddServer "x" (Sample.server "x" "bad");
                  OpAddServer "y" (Sample.server "y" "good")] in
  PyDict.keys (_servers s) = ["y"] /\
  PyDict.keys (_tools (snd (refresh_tools E s))) = ["x"; "y"] /\
  fst (get_server_tools "x" (snd (refresh_tools E s)))
    = Ok (Some (Sample.tools_of (Sample.server "x" "good"))).
Proof.
  intros E s.
  assert (Hr : reachable E s) by (eexists; reflexivity).
  destruct (refresh_tools_keeps_cache_keys E s Hr) as [Hk Hx].
  split; [reflexivity|]. split.
  - rewrite Hk. reflexivity.
  - rewrite (Hx "x" eq_refl). reflexivity.
Defined.

(** ** [get_all_tools] after [initialize_servers] *)

Lemma values_determined {V} (f : string -> yaml -> V)
    (items : list (string * yaml)) :
  PyDict.wf items ->
  forall d : PyDict.t V,
    PyDict.keys d = PyDict.keys items ->
    (forall n c, In (n, c) items -> PyDict.get n d = Some (f n c)) ->
    PyDict.values d = map (fun item => f (fst item) (snd item)) items.
Proof.
  unfold PyDict.wf, PyDict.keys, PyDict.values.
  induction items as [|[n c] items IH]; intros Hwf d Hk Hget.
  - destruct d; [reflexivity | discriminate].
  - destruct d as [|[n' v] d]; [discriminate|]. simpl in *.
    inversion Hk; subst n'. inversion Hwf as [|? ? Hnin Hwf']; subst.
    pose proof (Hget n c (or_introl eq_refl)) as Hn.
    rewrite String.eqb_refl in Hn. inversion Hn; subst v. f_equal.
    apply IH; auto. intros m c' Hin. specialize (Hget m c' (or_intror Hin)).
    destruct (String.eqb_spec m n) as [->|Hne]; auto.
    exfalso. apply Hnin. change n with (fst (n, c')). now apply in_map.
Qed.

(** After an initialisation in which every step succeeded, [get_all_tools]
    hands the aggregation routine the handles built from the entries, in
    the order of the configuration, and returns its answer or lets its
    exception through; it reads neither the tool cache nor changes either
    dictionary. *)
Theorem get_all_tools_after_initialize E s cfg items :
  _servers s = PyDict.empty -> _tools s = PyDict.empty ->
  _config s = YDict cfg ->
  PyDict.get "servers" cfg = Some (YDict items) ->
  PyDict.wf items -> valid_entries items ->
  constructible E items -> connectable E items ->
  let s1 := snd (initialize_servers E s) in
  let handles := map (fun item => entry_server (fst item) (snd item)) items in
  PyDict.values (_servers s1) = handles /\
  fst (get_all_tools E s1)
    = env_all_function_tools E (trace s1 ++ [Print AllToolsStart]) handles /\
  In (AllFunctionTools handles (fst (get_all_tools E s1)))
     (trace (snd (get_all_tools E s1))) /\
  same_dicts s1 (snd (get_all_tools E s1)).
Proof.
  intros Hs Ht Hc Hcfg Hwf Hvalid Hcons Hconn s1 handles.
  assert (Hv : PyDict.values (_servers s1) = handles).
  { subst s1. rewrite (initialize_servers_items E s cfg items Hc Hcfg).
    destruct (initialize_loop_all_succeed E items (append s [Print InitStart])
                Hwf Hvalid Hcons Hconn Hs Ht) as (Hr & Hks & _ & Hget).
    unfold bind. destruct (for_each items _ _) as [r s2]. simpl in *.
    subst r. simpl. now apply values_determined. }
  split; [exact Hv|].
  unfold get_all_tools, bind, print, emit, gets, call, ret. simpl.
  rewrite Hv.
  destruct (env_all_function_tools E _ handles) as [tools|e]; simpl.
  - split; [reflexivity|]. split; [|split; reflexivity].
    rewrite !in_app_iff. simpl. tauto.
  - split; [reflexivity|]. split; [|split; reflexivity].
    rewrite !in_app_iff. simpl. tauto.
Qed.

Lemma get_all_tools_after_initialize_witness :
  let E := Sample.world Sample.config2 in
  let s := snd (load_config E None init) in
  fst (get_all_tools E (snd (initialize_servers E s)))
    = Ok [YDict [("name", YStr "a_tool")]; YDict [("name", YStr "b_tool")]].
Proof.
  intros E s.
  pose (items := [("a", Sample.entry "good"); ("b", Sample.entry "good")]).
  assert (Hwf : PyDict.wf items).
  { unfold PyDict.wf. simpl. repeat constructor; simpl; intuition discriminate. }
  assert (Hvalid : valid_entries items).
  { intros n c [H|[H|[]]]; inversion H; reflexivity. }
  assert (Hcons : constructible E items).
  { intros n c tr [H|[H|[]]]; inversion H; reflexivity. }
  assert (Hconn : connectable E items).
  { intros n c tr [H|[H|[]]]; inversion H; (split; [reflexivity | eexists; reflexivity]). }
  destruct (get_all_tools_after_initialize E s
              [("servers", YDict items)] items
              eq_refl eq_refl eq_refl eq_refl Hwf Hvalid Hcons Hconn)
    as (_ & H & _).
  rewrite H. reflexivity.
Defined.

(** ** Initialising again *)

Lemma initialize_loop_in_place E items s0 :
  PyDict.wf items -> valid_entries items ->
  constructible E items -> connectable E items ->
  (forall n, In n (PyDict.keys items) ->
     PyDict.contains n (_servers s0) = true /\
     PyDict.contains n (_tools s0) = true) ->
  fst (for_each items (initialize_server E) s0) = Ok tt /\
  PyDict.keys (_servers (snd (for_each items (initialize_server E) s0)))
    = PyDict.keys (_servers s0) /\
  PyDict.keys (_tools (snd (for_each items (initialize_server E) s0)))
    = PyDict.keys (_tools s0) /\
  (forall n c, In (n, c) items ->
     PyDict.get n (_servers (snd (for_each items (initialize_server E) s0)))
       = Some (entry_server n c)).
Proof.
  intros Hwf Hvalid Hcons Hconn Hreg.
  pose (I := fun (rest : list (string * yaml)) (st : state) =>
    exists done,
      items = done ++ rest /\
      PyDict.keys (_servers st) = PyDict.keys (_servers s0) /\
      PyDict.keys (_tools st) = PyDict.keys (_tools s0) /\
      (forall n c, In (n, c) done ->
         PyDict.get n (_servers st) = Some (entry_server n c))).
  destruct (for_each_total (initialize_server E) I) with (l := items) (s := s0)
    as [Hr Hi].
  - intros [n c] rest st (done & Hd & Hks & Hkt & Hget).
    assert (Hin : In (n, c) items).
    { rewrite Hd. apply in_or_app. right. now left. }
    assert (Hfresh : ~ In n (PyDict.keys done)).
    { rewrite Hd in Hwf. now apply wf_fresh_key in Hwf. }
    assert (Hn : In n (PyDict.keys items)).
    { change n with (fst (n, c)). now apply in_map. }
    destruct (Hreg n Hn) as [Hrs Hrt].
    assert (Hcs : PyDict.contains n (_servers st) = true).
    { apply PyDictFacts.contains_true_iff. rewrite Hks.
      now apply PyDictFacts.contains_true_iff. }
    assert (Hct : PyDict.contains n (_tools st) = true).
    { apply PyDictFacts.contains_true_iff. rewrite Hkt.
      now apply PyDictFacts.contains_true_iff. }
    destruct (initialize_server_valid E n c st (Hvalid n c Hin))
      as (command & args & Heq).
    cbv zeta in Heq. rewrite Heq, (Hcons n c _ Hin), try_add_server_run.
    match goal with
    | |- context [add_server E n ?srv ?s2] =>
        destruct (Hconn n c (trace s2 ++ [Print (Connecting n)]) Hin)
          as [Hc _];
        destruct (Hconn n c
                    (trace s2 ++ [Print (Connecting n); Connect srv (Ok tt);
                                  Print (FetchingTools n)]) Hin)
          as [_ [tools Hf]];
        rewrite (add_server_succeeds E n srv s2 tools Hc Hf)
    end.
    simpl. split; [reflexivity|].
    exists (done ++ [(n, c)]). split; [now rewrite <- app_assoc|].
    simpl. rewrite !PyDictFacts.keys_set, Hcs, Hct.
    split; [exact Hks|]. split; [exact Hkt|].
    intros m c' Hm. apply in_app_or in Hm. destruct Hm as [Hm|[Hm|[]]].
    + rewrite PyDictFacts.get_set_other; auto.
      intros ->. apply Hfresh. change m with (fst (m, c')). now apply in_map.
    + inversion Hm; subst. apply PyDictFacts.get_set_same.
  - exists []. repeat split; auto. intros n c [].
  - destruct Hi as (done & Hd & Hks & Hkt & Hget).
    rewrite app_nil_r in Hd. subst done. auto.
Qed.

(** Initialising over names that are already registered (a second
    [initialize_servers], or entries added by hand before) with every step
    succeeding re-adds each entry in place: no name is duplicated, both
    dictionaries keep their keys and their order, and each configured name
    holds the handle newly built from its entry. *)
Theorem initialize_servers_again_in_place E s cfg items :
  _config s = YDict cfg ->
  PyDict.get "servers" cfg = Some (YDict items) ->
  PyDict.wf items -> valid_entries items ->
  constructible E items -> connectable E items ->
  (forall n, In n (PyDict.keys items) ->
     PyDict.contains n (_servers s) = true /\
     PyDict.contains n (_tools s) = true) ->
  fst (initialize_servers E s) = Ok tt /\
  PyDict.keys (_servers (snd (initialize_servers E s)))
    = PyDict.keys (_servers s) /\
  PyDict.keys (_tools (snd (initialize_servers E s)))
    = PyDict.keys (_tools s) /\
  (forall n c, In (n, c) items ->
     PyDict.get n (_servers (snd (initialize_servers E s)))
       = Some (entry_server n c)).
Proof.
  intros Hc Hcfg Hwf Hvalid Hcons Hconn Hreg.
  rewrite (initialize_servers_items E s cfg items Hc Hcfg).
  destruct (initialize_loop_in_place E items (append s [Print InitStart])
              Hwf Hvalid Hcons Hconn Hreg) as (Hr & Hks & Hkt & Hget).
  unfold bind. destruct (for_each items _ _) as [r s1]. simpl in *.
  subst r. auto.
Qed.

Lemma initialize_servers_again_in_place_witness :
  let E := Sample.world Sample.config2 in
  let s := run E [OpAddServer "b" (Sample.server "b" "good");
                  OpAddServer "a" (Sample.server "a" "good");
                  OpLoadConfig None] in
  PyDict.keys (_servers (snd (initialize_servers E s))) = ["b"; "a"] /\
  PyDict.get "b" (_servers (snd (initialize_servers E s)))
    = Some (entry_server "b" (Sample.entry "good")).
Proof.
  intros E s.
  pose (items := [("a", Sample.entry "good"); ("b", Sample.entry "good")]).
  assert (Hwf : PyDict.wf items).
  { unfold PyDict.wf. simpl. repeat constructor; simpl; intuition discriminate. }
  assert (Hvalid : valid_entries items).
  { intros n c [H|[H|[]]]; inversion H; reflexivity. }
  assert (Hcons : constructible E items).
  { intros n c tr [H|[H|[]]]; inversion H; reflexivity. }
  assert (Hconn : connectable E items).
  { intros n c tr [H|[H|[]]]; inversion H; (split; [reflexivity | eexists; reflexivity]). }
  assert (Hreg : forall n, In n (PyDict.keys items) ->
            PyDict.contains n (_servers s) = true /\
            PyDict.contains n (_tools s) = true).
  { intros n [H|[H|[]]]; subst n; split; reflexivity. }
  destruct (initialize_servers_again_in_place E s
              [("servers", YDict items)] items
              eq_refl eq_refl Hwf Hvalid Hcons Hconn Hreg)
    as (_ & Hks & _ & Hget).
  split.
  - rewrite Hks. reflexivity.
  - apply Hget. right. now left.
Defined.

(** ** [initialize_servers] stops at the first entry it cannot read *)

Lemma for_each_app {A} (body : A -> M unit) l1 l2 s :
  for_each (l1 ++ l2) body s = (for_each l1 body ;; for_each l2 body) s.
Proof.
  revert s. induction l1 as [|x l1 IH]; intros s; simpl.
  - reflexivity.
  - unfold bind in *. destruct (body x s) as [[[]|e] s1]; auto.
Qed.

(** There is no rollback.  When the entries before a malformed one (one
    without a readable [params]) all initialise, [initialize_servers] on a
    manager with nothing registered raises the error of the malformed
    entry right after announcing it, and the entries before it stay
    registered, in order, with their handles and tools; no later entry is
    looked at. *)
Theorem initialize_servers_no_rollback E s cfg done n c rest e :
  _servers s = PyDict.empty -> _tools s = PyDict.empty ->
  _config s = YDict cfg ->
  PyDict.get "servers" cfg = Some (YDict (done ++ (n, c) :: rest)) ->
  PyDict.wf done -> valid_entries done ->
  constructible E done -> connectable E done ->
  py_getitem c "params" = Raise e ->
  fst (initialize_servers E s) = Raise e /\
  PyDict.keys (_servers (snd (initialize_servers E s))) = PyDict.keys done /\
  PyDict.keys (_tools (snd (initialize_servers E s))) = PyDict.keys done /\
  (forall m c', In (m, c') done ->
     PyDict.get m (_servers (snd (initialize_servers E s)))
       = Some (entry_server m c')) /\
  exists tr, trace (snd (initialize_servers E s))
             = tr ++ [Print (Initializing n)].
Proof.
  intros Hs Ht Hc Hcfg Hwf Hvalid Hcons Hconn He.
  rewrite (initialize_servers_items E s cfg _ Hc Hcfg).
  destruct (initialize_loop_all_succeed E done (append s [Print InitStart])
              Hwf Hvalid Hcons Hconn Hs Ht) as (Hr & Hks & Hkt & Hget).
  destruct (for_each done (initialize_server E) (append s [Print InitStart]))
    as [r s1] eqn:Hdone.
  simpl in Hr, Hks, Hkt, Hget. subst r.
  assert (Hbody : initialize_server E (n, c) s1
                  = (Raise e, append s1 [Print (Initializing n)])).
  { unfold initialize_server, bind, print, emit, lift. simpl.
    now rewrite He. }
  assert (Hrun : (for_each (done ++ (n, c) :: rest) (initialize_server E) ;;
                  print InitDone) (append s [Print InitStart])
                 = (Raise e, append s1 [Print (Initializing n)])).
  { unfold bind at 1. rewrite for_each_app. unfold bind at 1.
    rewrite Hdone.
    change (for_each ((n, c) :: rest) (initialize_server E) s1)
      with ((initialize_server E (n, c) ;;
             for_each rest (initialize_server E)) s1).
    unfold bind at 1. now rewrite Hbody. }
  rewrite Hrun. simpl. repeat split; auto. now exists (trace s1).
Qed.

Lemma initialize_servers_no_rollback_witness :
  let E := Sample.world
             (YDict [("servers", YDict [("a", Sample.entry "good");
                                        ("b", YDict []);
                                        ("c", Sample.entry "good")])]) in
  let s := snd (load_config E None init) in
  fst (initialize_servers E s) = Raise (KeyError "params") /\
  PyDict.keys (_servers (snd (initialize_servers E s))) = ["a"].
Proof.
  intros E s.
  pose (done := [("a", Sample.entry "good")]).
  assert (Hwf : PyDict.wf done).
  { unfold PyDict.wf. simpl. repeat constructor; simpl; intuition. }
  assert (Hvalid : valid_entries done).
  { intros n c [H|[]]; inversion H; reflexivity. }
  assert (Hcons : constructible E done).
  { intros n c tr [H|[]]; inversion H; reflexivity. }
  assert (Hconn : connectable E done).
  { intros n c tr [H|[]]; inversion H; (split; [reflexivity | eexists; reflexivity]). }
  destruct (initialize_servers_no_rollback E s
              [("servers", YDict [("a", Sample.entry "good");
                                  ("b", YDict []);
                                  ("c", Sample.entry "good")])]
              done "b" (YDict []) [("c", Sample.entry "good")]
              (KeyError "params")
              eq_refl eq_refl eq_refl eq_refl Hwf Hvalid Hcons Hconn eq_refl)
    as (H1 & H2 & _).
  split; [exact H1 | exact H2].
Defined.

(** ** Killing a process is the last resort *)

Lemma kills_justified_extends (s s' : state) :
  extends no_shutdown s s' ->
  kills_justified (rev (trace s)) -> kills_justified (rev (trace s')).
Proof.
  intros (new & Htr & Hnew) Hk. rewrite Htr, rev_app_distr.
  apply Forall_rev in Hnew. induction Hnew as [|ev l Hev _ IH]; simpl; auto.
  destruct ev; simpl in *; auto; contradiction.
Qed.

Lemma keeps_kills_justified_close_server E item :
  stable (keeps (fun s => kills_justified (rev (trace s))))
    (close_server E item).
Proof.
  destruct item as [name server]. intros s Hk.
  unfold close_server, terminate_process, try_finally, try_except, bind,
    print, emit, call, gets, set_servers, ret. simpl.
  destruct (env_cleanup E _ server) as [[]|e1]; simpl.
  - destruct (PyDict.contains name (_servers s)); simpl;
      rewrite !rev_app_distr; simpl; exact Hk.
  - destruct (env_process E _ server) as [[|]|e2]; simpl;
      [destruct (env_terminate E _ server) as [[]|e3]; simpl;
       [destruct (env_poll E _ server) as [[|]|e4]; simpl;
        [destruct (env_kill E _ server) as [[]|e5]; simpl| |]|]| |];
      destruct (PyDict.contains name (_servers s)); simpl;
      rewrite !rev_app_distr; simpl; auto.
Qed.

Lemma exec_kills_justified E s o :
  kills_justified (rev (trace s)) ->
  kills_justified (rev (trace (exec E s o))).
Proof.
  intros Hk. destruct (op_eq_close o) as [->|Ho].
  - simpl.
    assert (Hm : stable (keeps (fun s => kills_justified (rev (trace s))))
                   (close E)); [|exact (Hm s Hk)].
    unfold close.
    stable_steps_with
      ltac:(first
              [ apply stable_for_each;
                [exact _ | intros ? _; apply keeps_kills_justified_close_server]
              | intros s0 Hs0; simpl; rewrite rev_app_distr; exact Hs0
              | intros s0 Hs0; exact Hs0 ]).
  - apply (kills_justified_extends s); auto.
    now apply only_close_shuts_down_aux.
Qed.

(** In every trace the public operations can produce, each [kill] comes
    directly after a [poll] that found the process still running, the wait,
    a [terminate] that returned, the check that the handle has a process,
    and the failed [cleanup] of that same handle: a server whose clean-up
    succeeded, or whose process ended on [terminate], is never killed. *)
Theorem kill_is_last_resort E ops :
  kills_justified (rev (trace (run E ops))).
Proof.
  unfold run.
  assert (H : forall s0, kills_justified (rev (trace s0)) ->
                         kills_justified (rev (trace (fold_left (exec E) ops s0)))).
  { induction ops as [|o ops IH]; simpl; auto.
    intros s0 H0. apply IH. now apply exec_kills_justified. }
  apply H. exact I.
Qed.

(** A run in which a process is killed. *)
Example kill_after_failed_cleanup :
  let E := with_stubborn_processes (Sample.world Sample.config2) in
  let h := Sample.server "x" "good" in
  skipn 5 (trace (run E [OpAddServer "x" h; OpClose]))
  = [Print CloseStart; Print (Closing "x");
     Cleanup h (Raise (External "cleanup"));
     Print (CleanupError "x" (External "cleanup"));
     Process h (Ok true); Terminate h (Ok tt); Sleep; Poll h (Ok true);
     Kill h (Ok tt); Print (Closed "x"); Print CloseDone].
Proof. reflexivity. Qed.
